(** * Campaign delivery worker (internal/worker/worker.go)

    A shallow embedding of [processCampaign], [sendTemplateMessage] and
    [getOrCreateContact], together with the properties the specification
    states about them.

    Conventions of the embedding.
    - The relational store is a record of tables.  A table with a UUID primary
      key is a finite map from the key to the row; the row record does not
      repeat the key.
    - A query by key fails exactly when no row matches.  Two reads carry an
      explicit fault: the recipient query (which succeeds on an empty result)
      and the status poll at the head of each iteration.
    - A write whose error the source discards or only logs takes effect.
    - Everything outside the process (cancellation of the context, a status
      set through the management API between two iterations, the gateway's
      answer, the clock, the key the store generates for a new contact) is read
      from an [Env], indexed by the iteration of the recipient loop.
    - The counters are Go [int]s: [x++] wraps at 64 bits.
    - Logging and the 100 ms sleep have no effect on the state and are left
      out. *)

From Stdlib Require Import ZArith Ascii DecimalString Decimal DecimalNat.
From stdpp Require Import gmap strings list fin_maps.

Local Open Scope Z_scope.

(** ** Strings *)

Module Str.

(** [strings.ReplaceAll] of the Go library for a pattern [old] that is not
    empty: matches are taken left to right and do not overlap.  [skip]
    counts the bytes of a match that are still to be dropped.  The one call
    site passes the pattern {{i}}; for the empty pattern (between every two
    runes in Go) the model is [interleave] on bytes. *)
Fixpoint replace_go (old new : string) (skip : nat) (s : string) : string :=
  match s with
  | EmptyString => EmptyString
  | String c s' =>
      match skip with
      | S k => replace_go old new k s'
      | O =>
          if String.prefix old s
          then new +:+ replace_go old new (Nat.pred (String.length old)) s'
          else String c (replace_go old new O s')
      end
  end.

Fixpoint interleave (new : string) (s : string) : string :=
  match s with
  | EmptyString => new
  | String c s' => new +:+ String c (interleave new s')
  end.

Definition ReplaceAll (s old new : string) : string :=
  match old with
  | EmptyString => interleave new s
  | String _ _ => replace_go old new O s
  end.

(** [fmt.Sprintf("%d", i)] for a non-negative [i]. *)
Definition Sprintf_d (i : nat) : string :=
  NilEmpty.string_of_uint (Nat.to_uint i).

(** [fmt.Sprintf("{{%d}}", i)]. *)
Definition placeholder (i : nat) : string :=
  "{{" +:+ Sprintf_d i +:+ "}}".

Definition is_brace (c : ascii) : bool :=
  (Ascii.eqb c "{" || Ascii.eqb c "}")%char.

Fixpoint brace_free (s : string) : bool :=
  match s with
  | EmptyString => true
  | String c s' => negb (is_brace c) && brace_free s'
  end.

Fixpoint no_open (s : string) : bool :=
  match s with
  | EmptyString => true
  | String c s' => negb (Ascii.eqb c "{"%char) && no_open s'
  end.

End Str.

(** ** Data model (package models; the fields the worker touches) *)

Definition uuid := N.
Definition time := Z.

(** A value of a JSONB bag ([map[string]interface{}]): what JSON decoding
    yields, with a number kept as the text [%v] prints for it. *)
Inductive jvalue :=
| JString (s : string)
| JNumber (shown : string)
| JBool (b : bool)
| JNull.

(** [fmt.Sprintf("%v", val)]. *)
Definition Sprintf_v (val : jvalue) : string :=
  match val with
  | JString s => s
  | JNumber shown => shown
  | JBool true => "true"
  | JBool false => "false"
  | JNull => "<nil>"
  end.

(** [models.JSONB]; [None] is the nil map. *)
Definition JSONB := option (gmap string jvalue).

Module Template.
Record t := {
  Name : string;
  Language : string;
  BodyContent : string
}.
End Template.

(** The placeholder loop of [processCampaign] (lines 166-177): for [i] from 1
    to 10, replace {{i}} by the value under key [i] when there is one. *)
Definition substitute_one (params : gmap string jvalue) (content : string) (i : nat) : string :=
  match params !! Str.Sprintf_d i with
  | Some val => Str.ReplaceAll content (Str.placeholder i) (Sprintf_v val)
  | None => content
  end.

Definition render (body : string) (params : JSONB) : string :=
  match params with
  | Some m => fold_left (substitute_one m) (seq 1 10) body
  | None => body
  end.

Definition params_of (l : list (string * jvalue)) : JSONB := Some (list_to_map l).

(** [uuid.UUID.String]: 32 hexadecimal digits grouped 8-4-4-4-12. *)
Definition hex_digit (n : N) : ascii :=
  match n with
  | 0 => "0" | 1 => "1" | 2 => "2" | 3 => "3" | 4 => "4" | 5 => "5"
  | 6 => "6" | 7 => "7" | 8 => "8" | 9 => "9" | 10 => "a" | 11 => "b"
  | 12 => "c" | 13 => "d" | 14 => "e" | _ => "f"
  end%N%char.

Fixpoint hex_go (k : nat) (n : N) (acc : string) : string :=
  match k with
  | O => acc
  | S k' => hex_go k' (n / 16)%N (String (hex_digit (n mod 16)%N) acc)
  end.

Definition uuid_String (u : uuid) : string :=
  let h := hex_go 32 u "" in
  String.substring 0 8 h +:+ "-" +:+ String.substring 8 4 h +:+ "-" +:+
  String.substring 12 4 h +:+ "-" +:+ String.substring 16 4 h +:+ "-" +:+
  String.substring 20 12 h.

(** Go's [int] on the 64-bit targets, and [x++] on it. *)
Definition int_min : Z := - 2 ^ 63.
Definition int_max : Z := 2 ^ 63 - 1.
Definition int_wrap (z : Z) : Z := (z + 2 ^ 63) mod 2 ^ 64 - 2 ^ 63.
Definition incr (z : Z) : Z := int_wrap (z + 1).

Module Campaign.
(** [models.BulkMessageCampaign]; [Template] is the preloaded association,
    [None] when the campaign has no template row. *)
Record t := {
  OrganizationID : uuid;
  WhatsAppAccount : string;
  Template : option Template.t;
  Status : string;
  SentCount : Z;
  FailedCount : Z;
  CompletedAt : option time
}.

Definition set_Status (v : string) (c : t) : t :=
  {| OrganizationID := OrganizationID c; WhatsAppAccount := WhatsAppAccount c;
     Template := Template c; Status := v; SentCount := SentCount c;
     FailedCount := FailedCount c; CompletedAt := CompletedAt c |}.

Definition set_counts (sent failed : Z) (c : t) : t :=
  {| OrganizationID := OrganizationID c; WhatsAppAccount := WhatsAppAccount c;
     Template := Template c; Status := Status c; SentCount := sent;
     FailedCount := failed; CompletedAt := CompletedAt c |}.

Definition set_completed (now : time) (sent failed : Z) (c : t) : t :=
  {| OrganizationID := OrganizationID c; WhatsAppAccount := WhatsAppAccount c;
     Template := Template c; Status := "completed"; SentCount := sent;
     FailedCount := failed; CompletedAt := Some now |}.
End Campaign.

Module Account.
(** [models.WhatsAppAccount]. *)
Record t := {
  Name : string;
  OrganizationID : uuid;
  PhoneID : string;
  BusinessID : string;
  APIVersion : string;
  AccessToken : string
}.
End Account.

Module Recipient.
(** [models.BulkMessageRecipient]. *)
Record t := {
  CampaignID : uuid;
  PhoneNumber : string;
  RecipientName : string;
  TemplateParams : JSONB;
  Status : string;
  ErrorMessage : string;
  WhatsAppMessageID : string;
  SentAt : option time
}.

(** The column maps passed to [Updates]. *)
Definition mark_contact_failed (r : t) : t :=
  {| CampaignID := CampaignID r; PhoneNumber := PhoneNumber r;
     RecipientName := RecipientName r; TemplateParams := TemplateParams r;
     Status := "failed"; ErrorMessage := "Failed to create contact";
     WhatsAppMessageID := WhatsAppMessageID r; SentAt := SentAt r |}.

Definition mark_failed (waMessageID errorMessage : string) (r : t) : t :=
  {| CampaignID := CampaignID r; PhoneNumber := PhoneNumber r;
     RecipientName := RecipientName r; TemplateParams := TemplateParams r;
     Status := "failed"; ErrorMessage := errorMessage;
     WhatsAppMessageID := waMessageID; SentAt := SentAt r |}.

Definition mark_sent (waMessageID : string) (now : time) (r : t) : t :=
  {| CampaignID := CampaignID r; PhoneNumber := PhoneNumber r;
     RecipientName := RecipientName r; TemplateParams := TemplateParams r;
     Status := "sent"; ErrorMessage := ErrorMessage r;
     WhatsAppMessageID := waMessageID; SentAt := Some now |}.
End Recipient.

Module Contact.
(** [models.Contact]. *)
Record t := {
  OrganizationID : uuid;
  PhoneNumber : string;
  ProfileName : string
}.
End Contact.

Module Message.
(** [models.Message]. *)
Record t := {
  OrganizationID : uuid;
  WhatsAppAccount : string;
  ContactID : uuid;
  WhatsAppMessageID : string;
  Direction : string;
  MessageType : string;
  TemplateParams : JSONB;
  Metadata : gmap string jvalue;
  TemplateName : string;
  Content : string;
  Status : string;
  ErrorMessage : string
}.
End Message.

(** [queue.CampaignStatsUpdate]. *)
Module Stats.
Record t := {
  CampaignID : string;
  OrganizationID : uuid;
  Status : string;
  SentCount : Z;
  DeliveredCount : Z;
  ReadCount : Z;
  FailedCount : Z
}.
End Stats.

(** ** The gateway ([pkg/whatsapp]) *)

Module Gateway.
(** [whatsapp.Account]. *)
Record Account := {
  PhoneID : string;
  BusinessID : string;
  APIVersion : string;
  AccessToken : string
}.

(** One entry of [components]: the map with type body and the list of its
    text parameters (each a map with type text and the value). *)
Inductive component := Body (parameters : list jvalue).

(** The arguments of [SendTemplateMessageWithComponents]. *)
Record request := {
  account : Account;
  to : string;
  templateName : string;
  language : string;
  components : list component
}.

(** Its results: the provider's message identifier and the error. *)
Definition reply : Type := string * option string.
End Gateway.

(** ** The store *)

Record Store := {
  campaigns : gmap uuid Campaign.t;
  accounts : gmap uuid Account.t;
  recipients : gmap uuid Recipient.t;
  contacts : gmap uuid Contact.t;
  messages : list Message.t
}.

Definition with_campaigns (f : gmap uuid Campaign.t -> gmap uuid Campaign.t) (db : Store) : Store :=
  {| campaigns := f (campaigns db); accounts := accounts db;
     recipients := recipients db; contacts := contacts db; messages := messages db |}.

Definition with_recipients (f : gmap uuid Recipient.t -> gmap uuid Recipient.t) (db : Store) : Store :=
  {| campaigns := campaigns db; accounts := accounts db;
     recipients := f (recipients db); contacts := contacts db; messages := messages db |}.

Definition with_contacts (f : gmap uuid Contact.t -> gmap uuid Contact.t) (db : Store) : Store :=
  {| campaigns := campaigns db; accounts := accounts db;
     recipients := recipients db; contacts := f (contacts db); messages := messages db |}.

Definition with_messages (f : list Message.t -> list Message.t) (db : Store) : Store :=
  {| campaigns := campaigns db; accounts := accounts db;
     recipients := recipients db; contacts := contacts db; messages := f (messages db) |}.

(** [Where(cond).First(&row)]: of the rows that satisfy [cond], the one with
    the least primary key. *)
Definition least {A : Type} (cond : A -> bool) (kv : uuid * A) (best : option (uuid * A)) : option (uuid * A) :=
  if cond kv.2 then
    match best with
    | Some b => if (kv.1 <? b.1)%N then Some kv else Some b
    | None => Some kv
    end
  else best.

Definition First {A : Type} (cond : A -> bool) (tbl : gmap uuid A) : option (uuid * A) :=
  foldr (least cond) None (map_to_list tbl).

(** [Where(cond).Find(&rows)], in the order the table yields its rows. *)
Definition Find {A : Type} (cond : A -> bool) (tbl : gmap uuid A) : list (uuid * A) :=
  List.filter (fun kv => cond kv.2) (map_to_list tbl).

(** [Model(&row).Update/Updates]: the row with that key, when there is one. *)
Definition Update {A : Type} (id : uuid) (f : A -> A) (tbl : gmap uuid A) : gmap uuid A :=
  alter f id tbl.

Definition err_not_found : string := "record not found".
Definition err_duplicate_key : string := "duplicate key value violates unique constraint".

(** [Create(&contact)]: [insert] is what the store answers, an error or the
    key it generated; a key already in use is refused. *)
Definition create_contact (insert : string + uuid) (contact : Contact.t) (db : Store) : string + (uuid * Store) :=
  match insert with
  | inl e => inl e
  | inr id =>
      match contacts db !! id with
      | Some _ => inl err_duplicate_key
      | None => inr (id, with_contacts (fun tbl => <[id := contact]> tbl) db)
      end
  end.

(** ** What the run reads from outside *)

Record Env := {
  (** [ctx.Err()] when iteration [i] starts; [None] while the context is live. *)
  ctx_Err : nat -> option string;
  (** The status the management API writes before the poll of iteration [i]. *)
  management_status : nat -> option string;
  (** Whether the poll of iteration [i] fails. *)
  poll_fails : nat -> bool;
  (** The fault of the recipient query, if any. *)
  find_recipients_err : option string;
  (** The store's answer to the contact insert of iteration [i]. *)
  contact_insert : nat -> string + uuid;
  (** The gateway's answer in iteration [i]. *)
  gateway : nat -> Gateway.request -> Gateway.reply;
  (** [time.Now()] in iteration [i], and after the loop. *)
  now : nat -> time;
  completed_now : time
}.

(** ** The worker *)

Inductive outcome :=
| Returned (err : option string)
| Panicked (reason : string).

Inductive flow :=
| Continue
| Break (o : outcome).

(** The store, the snapshots published so far, and the two local counters of
    [processCampaign]. *)
Record Run := {
  store : Store;
  published : list Stats.t;
  sentCount : Z;
  failedCount : Z
}.

Definition on_store (f : Store -> Store) (l : Run) : Run :=
  {| store := f (store l); published := published l;
     sentCount := sentCount l; failedCount := failedCount l |}.

Definition same_contact (orgID : uuid) (phone : string) (c : Contact.t) : bool :=
  (Contact.OrganizationID c =? orgID)%N && String.eqb (Contact.PhoneNumber c) phone.

(** Lines 299-302. *)
Definition normalize (phoneNumber : string) : string :=
  match phoneNumber with
  | String "+" rest => rest
  | _ => phoneNumber
  end.

(** [getOrCreateContact] (lines 297-329). *)
Definition getOrCreateContact (insert : string + uuid) (db : Store)
    (orgID : uuid) (phoneNumber name : string) : Store * (string + (uuid * Contact.t)) :=
  let normalizedPhone := normalize phoneNumber in
  match First (same_contact orgID normalizedPhone) (contacts db) with
  | Some contact => (db, inr contact)
  | None =>
      match First (same_contact orgID ("+" +:+ normalizedPhone)) (contacts db) with
      | Some contact => (db, inr contact)
      | None =>
          let contact := {| Contact.OrganizationID := orgID;
                            Contact.PhoneNumber := normalizedPhone;
                            Contact.ProfileName := name |} in
          match create_contact insert contact db with
          | inl err => (db, inl ("failed to create contact: " +:+ err))
          | inr (id, db') => (db', inr (id, contact))
          end
      end
  end.

(** Lines 263-283. *)
Definition bodyParams (params : JSONB) : list jvalue :=
  match params with
  | Some m =>
      if (0 <? size m)%nat
      then omap (fun i => m !! Str.Sprintf_d i) (seq 1 10)
      else []
  | None => []
  end.

Definition components_of (params : JSONB) : list Gateway.component :=
  match bodyParams params with
  | [] => []
  | ps => [Gateway.Body ps]
  end.

Definition nil_dereference : string :=
  "runtime error: invalid memory address or nil pointer dereference".

(** [sendTemplateMessage] (lines 254-286).  [template] is a pointer; line 285
    reads [template.Name] and [template.Language], which panics on nil. *)
Definition sendTemplateMessage (send : Gateway.request -> Gateway.reply)
    (account : Account.t) (template : option Template.t) (recipient : Recipient.t)
    : string + Gateway.reply :=
  let waAccount := {| Gateway.PhoneID := Account.PhoneID account;
                      Gateway.BusinessID := Account.BusinessID account;
                      Gateway.APIVersion := Account.APIVersion account;
                      Gateway.AccessToken := Account.AccessToken account |} in
  let components := components_of (Recipient.TemplateParams recipient) in
  match template with
  | None => inl nil_dereference
  | Some tpl =>
      inr (send {| Gateway.account := waAccount;
                   Gateway.to := Recipient.PhoneNumber recipient;
                   Gateway.templateName := Template.Name tpl;
                   Gateway.language := Template.Language tpl;
                   Gateway.components := components |})
  end.

(** Lines 150-189: the message record, before it is saved. *)
Definition build_message (campaignID : uuid) (campaign : Campaign.t)
    (contactID : uuid) (recipient : Recipient.t) (reply : Gateway.reply) : Message.t :=
  {| Message.OrganizationID := Campaign.OrganizationID campaign;
     Message.WhatsAppAccount := Campaign.WhatsAppAccount campaign;
     Message.ContactID := contactID;
     Message.WhatsAppMessageID := reply.1;
     Message.Direction := "outgoing";
     Message.MessageType := "template";
     Message.TemplateParams := Recipient.TemplateParams recipient;
     Message.Metadata :=
       {[ "campaign_id" := JString (uuid_String campaignID);
          "recipient_name" := JString (Recipient.RecipientName recipient) ]};
     Message.TemplateName :=
       match Campaign.Template campaign with
       | Some tpl => Template.Name tpl
       | None => ""
       end;
     Message.Content :=
       match Campaign.Template campaign with
       | Some tpl => render (Template.BodyContent tpl) (Recipient.TemplateParams recipient)
       | None => ""
       end;
     Message.Status := match reply.2 with Some _ => "failed" | None => "sent" end;
     Message.ErrorMessage := match reply.2 with Some err => err | None => "" end |}.

Definition progress (campaignID : uuid) (campaign : Campaign.t) (status : string)
    (sent failed : Z) : Stats.t :=
  {| Stats.CampaignID := uuid_String campaignID;
     Stats.OrganizationID := Campaign.OrganizationID campaign;
     Stats.Status := status;
     Stats.SentCount := sent;
     Stats.DeliveredCount := 0;
     Stats.ReadCount := 0;
     Stats.FailedCount := failed |}.

(** Lines 134-226: one recipient, behind the two checks. *)
Definition deliver (E : Env) (campaignID : uuid) (campaign : Campaign.t)
    (account : Account.t) (i : nat) (rid : uuid) (recipient : Recipient.t)
    (l : Run) : Run * flow :=
  match getOrCreateContact (contact_insert E i) (store l)
          (Campaign.OrganizationID campaign)
          (Recipient.PhoneNumber recipient) (Recipient.RecipientName recipient) with
  | (db, inl _) =>
      ({| store := with_recipients (Update rid Recipient.mark_contact_failed) db;
          published := published l;
          sentCount := sentCount l;
          failedCount := incr (failedCount l) |}, Continue)
  | (db, inr (contactID, _)) =>
      match sendTemplateMessage (gateway E i) account (Campaign.Template campaign) recipient with
      | inl reason =>
          ({| store := db; published := published l;
              sentCount := sentCount l; failedCount := failedCount l |},
           Break (Panicked reason))
      | inr reply =>
          let message := build_message campaignID campaign contactID recipient reply in
          let sent := match reply.2 with Some _ => sentCount l | None => incr (sentCount l) end in
          let failed := match reply.2 with Some _ => incr (failedCount l) | None => failedCount l end in
          let recipientUpdate :=
            match reply.2 with
            | Some _ => Recipient.mark_failed reply.1 (Message.ErrorMessage message)
            | None => Recipient.mark_sent reply.1 (now E i)
            end in
          let db1 := with_messages (fun ms => ms ++ [message]) db in
          let db2 := with_recipients (Update rid recipientUpdate) db1 in
          let db3 := with_campaigns (Update campaignID (Campaign.set_counts sent failed)) db2 in
          ({| store := db3;
              published := published l ++ [progress campaignID campaign "processing" sent failed];
              sentCount := sent; failedCount := failed |}, Continue)
      end
  end.

(** What the management API does to the campaign before poll [i]. *)
Definition management (E : Env) (campaignID : uuid) (i : nat) (db : Store) : Store :=
  match management_status E i with
  | Some s => with_campaigns (Update campaignID (Campaign.set_Status s)) db
  | None => db
  end.

(** Lines 127-128: [currentCampaign] is a fresh zero value, which a failed
    query leaves as it is. *)
Definition polled_status (E : Env) (campaignID : uuid) (i : nat) (db : Store) : string :=
  if poll_fails E i then ""
  else match campaigns db !! campaignID with
       | Some currentCampaign => Campaign.Status currentCampaign
       | None => ""
       end.

Definition stopped (status : string) : bool :=
  String.eqb status "paused" || String.eqb status "cancelled".

(** Lines 117-227: the body of the loop for the recipient at position [i]. *)
Definition iteration (E : Env) (campaignID : uuid) (campaign : Campaign.t)
    (account : Account.t) (i : nat) (r : uuid * Recipient.t) (l : Run) : Run * flow :=
  match ctx_Err E i with
  | Some err => (l, Break (Returned (Some err)))
  | None =>
      let l1 := on_store (management E campaignID i) l in
      if stopped (polled_status E campaignID i (store l1))
      then (l1, Break (Returned None))
      else deliver E campaignID campaign account i r.1 r.2 l1
  end.

Fixpoint loop (E : Env) (campaignID : uuid) (campaign : Campaign.t)
    (account : Account.t) (i : nat) (rs : list (uuid * Recipient.t)) (l : Run)
    : Run * flow :=
  match rs with
  | [] => (l, Continue)
  | r :: rs' =>
      match iteration E campaignID campaign account i r l with
      | (l', Continue) => loop E campaignID campaign account (S i) rs' l'
      | stop => stop
      end
  end.

Definition startable (status : string) : bool :=
  String.eqb status "queued" || String.eqb status "processing".

Definition same_account (name : string) (orgID : uuid) (a : Account.t) : bool :=
  String.eqb (Account.Name a) name && (Account.OrganizationID a =? orgID)%N.

Definition is_pending (campaignID : uuid) (r : Recipient.t) : bool :=
  (Recipient.CampaignID r =? campaignID)%N && String.eqb (Recipient.Status r) "pending".

(** The result of line 106 on a store. *)
Definition pending (campaignID : uuid) (db : Store) : list (uuid * Recipient.t) :=
  Find (is_pending campaignID) (recipients db).

Definition fail_campaign (campaignID : uuid) (db : Store) : Store :=
  with_campaigns (Update campaignID (Campaign.set_Status "failed")) db.

(** Line 102. *)
Definition mark_processing (campaignID : uuid) (db : Store) : Store :=
  with_campaigns (Update campaignID (Campaign.set_Status "processing")) db.

(** Lines 114-115: the counters start from the loaded campaign's. *)
Definition enter (db : Store) (pub : list Stats.t) (campaign : Campaign.t) : Run :=
  {| store := db; published := pub;
     sentCount := Campaign.SentCount campaign;
     failedCount := Campaign.FailedCount campaign |}.

(** Lines 229-247. *)
Definition complete (E : Env) (campaignID : uuid) (campaign : Campaign.t) (l : Run)
    : Store * list Stats.t :=
  (with_campaigns
     (Update campaignID
        (Campaign.set_completed (completed_now E) (sentCount l) (failedCount l)))
     (store l),
   published l ++ [progress campaignID campaign "completed" (sentCount l) (failedCount l)]).

(** [processCampaign] (lines 77-251): the store and the published snapshots
    after the run, and how the call ended. *)
Definition processCampaign (E : Env) (db : Store) (pub : list Stats.t) (campaignID : uuid)
    : Store * list Stats.t * outcome :=
  match campaigns db !! campaignID with
  | None => (db, pub, Returned (Some ("failed to load campaign: " +:+ err_not_found)))
  | Some campaign =>
      if negb (startable (Campaign.Status campaign)) then (db, pub, Returned None)
      else
        match First (same_account (Campaign.WhatsAppAccount campaign)
                       (Campaign.OrganizationID campaign)) (accounts db) with
        | None =>
            (fail_campaign campaignID db, pub,
             Returned (Some ("failed to load WhatsApp account: " +:+ err_not_found)))
        | Some (_, account) =>
            let db1 := mark_processing campaignID db in
            match find_recipients_err E with
            | Some err =>
                (fail_campaign campaignID db1, pub,
                 Returned (Some ("failed to load recipients: " +:+ err)))
            | None =>
                let recipients := pending campaignID db1 in
                match loop E campaignID campaign account O recipients (enter db1 pub campaign) with
                | (l, Break o) => (store l, published l, o)
                | (l, Continue) => (complete E campaignID campaign l, Returned None)
                end
            end
        end
  end.

(** ** The specification's reading of the substitution *)

(** A template body as the specification describes it: literal text and
    numbered placeholders. *)
Inductive token :=
| Text (s : string)
| Hole (k : nat).

Definition token_string (t : token) : string :=
  match t with
  | Text s => s
  | Hole k => Str.placeholder k
  end.

Definition flatten (ts : list token) : string :=
  foldr (fun t s => token_string t +:+ s) "" ts.

(** Following the specification's words: a placeholder with an index from 1
    to 10 whose key is among the parameters becomes that parameter's value;
    every other token stays as it is. *)
Definition fill (params : gmap string jvalue) (t : token) : token :=
  match t with
  | Text s => Text s
  | Hole k =>
      if ((1 <=? k) && (k <=? 10))%nat then
        match params !! Str.Sprintf_d k with
        | Some val => Text (Sprintf_v val)
        | None => Hole k
        end
      else Hole k
  end.

Definition rendered_spec (ts : list token) (params : gmap string jvalue) : string :=
  flatten (List.map (fill params) ts).

Definition plain (t : token) : bool :=
  match t with
  | Text s => Str.brace_free s
  | Hole _ => true
  end.

(** One pass of the placeholder loop, read on tokens. *)
Definition put (i : nat) (new : string) (t : token) : token :=
  match t with
  | Text s => Text s
  | Hole k => if Nat.eqb k i then Text new else Hole k
  end.

Definition pass_token (params : gmap string jvalue) (t : token) (i : nat) : token :=
  match params !! Str.Sprintf_d i with
  | Some val => put i (Sprintf_v val) t
  | None => t
  end.

Definition pass (params : gmap string jvalue) (ts : list token) (i : nat) : list token :=
  List.map (fun t => pass_token params t i) ts.

(** The environment [E] with a status poll that never fails. *)
Definition poll_succeeds (E : Env) : Env :=
  {| ctx_Err := ctx_Err E;
     management_status := management_status E;
     poll_fails := fun _ => false;
     find_recipients_err := find_recipients_err E;
     contact_insert := contact_insert E;
     gateway := gateway E;
     now := now E;
     completed_now := completed_now E |}.

(** ** The callers of [processCampaign] *)

(** [queue.CampaignJob]. *)
Record CampaignJob := { job_CampaignID : uuid }.

(** [handleCampaignJob] (lines 64-74): the error of [processCampaign] is
    logged and handed back as it is. *)
Definition handleCampaignJob (E : Env) (db : Store) (pub : list Stats.t) (job : CampaignJob)
    : Store * list Stats.t * outcome :=
  processCampaign E db pub (job_CampaignID job).

Module Worker.
(** [Run] (lines 51-61), given what [Consumer.Consume] returned and what
    [ctx.Err()] answers afterwards. *)
Definition Run (consumed : option string) (ctx_err : option string) : option string :=
  match consumed, ctx_err with
  | Some err, None => Some ("consumer error: " +:+ err)
  | _, _ => None
  end.

(** [Close] (lines 289-294); [consumer] is [None] for the nil pointer and
    otherwise holds what [Consumer.Close] returns. *)
Definition Close (consumer : option (option string)) : option string :=
  match consumer with
  | Some closed => closed
  | None => None
  end.
End Worker.

(** ** What a run may do to the store *)

(** A snapshot as [processCampaign] builds them (lines 215-223, 239-247). *)
Definition snapshot_of (campaignID : uuid) (campaign : Campaign.t) (s : Stats.t) : Prop :=
  Stats.CampaignID s = uuid_String campaignID
  /\ Stats.OrganizationID s = Campaign.OrganizationID campaign
  /\ Stats.DeliveredCount s = 0
  /\ Stats.ReadCount s = 0
  /\ (Stats.Status s = "processing" \/ Stats.Status s = "completed").

(** The store and the published snapshots [db'], [pub'] come from [db], [pub]
    by a part of a run of campaign [campaignID]: accounts and the other
    campaigns are untouched, contacts are only added and messages only
    appended, at most [n] of each, and at most [p] snapshots are appended. *)
Definition within (campaignID : uuid) (campaign : Campaign.t) (n p : nat)
    (db : Store) (pub : list Stats.t) (db' : Store) (pub' : list Stats.t) : Prop :=
  accounts db' = accounts db
  /\ (forall other, other <> campaignID -> campaigns db' !! other = campaigns db !! other)
  /\ contacts db ⊆ contacts db'
  /\ (size (contacts db') <= size (contacts db) + n)%nat
  /\ (exists ms, messages db' = messages db ++ ms /\ (length ms <= n)%nat)
  /\ (exists news, pub' = pub ++ news /\ (length news <= p)%nat
                   /\ Forall (snapshot_of campaignID campaign) news).

(** The counters of a run that started from [sent0] and [failed0] and has
    made at most [n] steps: the local ones never fall behind the persisted
    ones, neither falls below the start, and the local sum has grown by at
    most [n]. *)
Definition counted (campaignID : uuid) (sent0 failed0 : Z) (n : nat) (l : Run) : Prop :=
  sentCount l + failedCount l <= sent0 + failed0 + Z.of_nat n
  /\ exists current,
       campaigns (store l) !! campaignID = Some current
       /\ sent0 <= Campaign.SentCount current <= sentCount l
       /\ failed0 <= Campaign.FailedCount current <= failedCount l.

(** ** A small store and environment, used to run the definitions *)

Module Sample.

Definition tpl : Template.t :=
  {| Template.Name := "order_update"; Template.Language := "en";
     Template.BodyContent := "Hi {{1}}, your order {{2}} shipped" |}.

Definition campaign (status : string) (template : option Template.t) (sent failed : Z)
    : Campaign.t :=
  {| Campaign.OrganizationID := 7%N; Campaign.WhatsAppAccount := "main";
     Campaign.Template := template; Campaign.Status := status;
     Campaign.SentCount := sent; Campaign.FailedCount := failed;
     Campaign.CompletedAt := None |}.

Definition account : Account.t :=
  {| Account.Name := "main"; Account.OrganizationID := 7%N;
     Account.PhoneID := "phone-1"; Account.BusinessID := "biz-1";
     Account.APIVersion := "v21.0"; Account.AccessToken := "token" |}.

Definition recipient (phone name : string) : Recipient.t :=
  {| Recipient.CampaignID := 1%N; Recipient.PhoneNumber := phone;
     Recipient.RecipientName := name;
     Recipient.TemplateParams := params_of [("1", JString name); ("2", JString "#42")];
     Recipient.Status := "pending"; Recipient.ErrorMessage := "";
     Recipient.WhatsAppMessageID := ""; Recipient.SentAt := None |}.

(** Campaign 1 of organization 7 with three pending recipients. *)
Definition db (c : Campaign.t) : Store :=
  {| campaigns := {[ 1%N := c ]};
     accounts := {[ 3%N := account ]};
     recipients := list_to_map [(10%N, recipient "+111" "Ana");
                                (11%N, recipient "222" "Bo");
                                (12%N, recipient "+333" "Cy")];
     contacts := ∅;
     messages := [] |}.

(** The same store without the sending account. *)
Definition db_no_account (c : Campaign.t) : Store :=
  {| campaigns := campaigns (db c); accounts := ∅;
     recipients := recipients (db c); contacts := ∅; messages := [] |}.

(** The same store with a single pending recipient. *)
Definition db_one (c : Campaign.t) : Store :=
  {| campaigns := campaigns (db c); accounts := accounts (db c);
     recipients := {[ 10%N := recipient "+111" "Ana" ]};
     contacts := ∅; messages := [] |}.

(** The gateway rejects the send of iteration 1 and accepts the others. *)
Definition env (management : nat -> option string) (poll : nat -> bool)
    (insert : nat -> string + uuid) : Env :=
  {| ctx_Err := fun _ => None;
     management_status := management;
     poll_fails := poll;
     find_recipients_err := None;
     contact_insert := insert;
     gateway := fun i _ => if Nat.eqb i 1 then ("", Some "template rejected")
                           else ("wamid.1", None);
     now := fun i => Z.of_nat (1000 + i);
     completed_now := 2000 |}.

Definition quiet : Env :=
  env (fun _ => None) (fun _ => false) (fun i => inr (N.of_nat (100 + i))).

Definition run (l : Store) : Run :=
  {| store := l; published := []; sentCount := 0; failedCount := 0 |}.

(** The management API cancels the campaign before the second poll. *)
Definition cancelling : Env :=
  env (fun i => if Nat.eqb i 1 then Some "cancelled" else None) (fun _ => false)
      (fun i => inr (N.of_nat (100 + i))).

(** The context is cancelled from iteration [n] on. *)
Definition cancelled_from (n : nat) : Env :=
  {| ctx_Err := fun i => if (n <=? i)%nat then Some "context canceled" else None;
     management_status := fun _ => None;
     poll_fails := fun _ => false;
     find_recipients_err := None;
     contact_insert := fun i => inr (N.of_nat (100 + i));
     gateway := fun _ _ => ("wamid.1", None);
     now := fun i => Z.of_nat (1000 + i);
     completed_now := 2000 |}.

(** The recipient query fails. *)
Definition query_fails : Env :=
  {| ctx_Err := fun _ => None;
     management_status := fun _ => None;
     poll_fails := fun _ => false;
     find_recipients_err := Some "connection reset";
     contact_insert := fun i => inr (N.of_nat (100 + i));
     gateway := fun _ _ => ("wamid.1", None);
     now := fun i => Z.of_nat (1000 + i);
     completed_now := 2000 |}.

(** The store without any recipient. *)
Definition db_idle (c : Campaign.t) : Store :=
  {| campaigns := campaigns (db c); accounts := accounts (db c);
     recipients := ∅; contacts := ∅; messages := [] |}.

End Sample.

(** ** Facts about the string functions *)

Module StrFacts.
Import Str.

#[local] Arguments String.append : simpl nomatch.

Lemma append_assoc (a b c : string) : (a +:+ b) +:+ c = a +:+ (b +:+ c).
Proof. induction a as [|x a IH]; simpl; [reflexivity | now rewrite IH]. Qed.

Lemma prefix_append (a b : string) : String.prefix a (a +:+ b) = true.
Proof.
  induction a as [|x a IH]; simpl; [now destruct b |].
  destruct (ascii_dec x x) as [_|ne]; [exact IH | now destruct ne].
Qed.

Lemma prefix_head_ne (x y : ascii) (a b : string) :
  x <> y -> String.prefix (String x a) (String y b) = false.
Proof. intros ne. simpl. destruct (ascii_dec x y); [contradiction | reflexivity]. Qed.

Lemma brace_free_no_open (s : string) : brace_free s = true -> no_open s = true.
Proof.
  induction s as [|c s IH]; simpl; [reflexivity |].
  unfold is_brace. intros H.
  apply andb_true_iff in H as [Hc Hs]. apply negb_true_iff, orb_false_iff in Hc as [Hc _].
  now rewrite Hc, IH.
Qed.

Lemma no_open_append (a b : string) : no_open (a +:+ b) = no_open a && no_open b.
Proof. induction a as [|c a IH]; simpl; [reflexivity | now rewrite IH, andb_assoc]. Qed.

(** Dropping the rest of a match. *)
Lemma replace_go_skip (old new t rest : string) :
  replace_go old new (String.length t) (t +:+ rest) = replace_go old new O rest.
Proof.
  induction t as [|c t IH]; simpl; [| exact IH].
  destruct rest; reflexivity.
Qed.

(** At a match the replacement is emitted and the scan resumes behind it. *)
Lemma replace_go_match (c : ascii) (old new rest : string) :
  replace_go (String c old) new O (String c old +:+ rest)
  = new +:+ replace_go (String c old) new O rest.
Proof.
  change (String c old +:+ rest) with (String c (old +:+ rest)).
  cbn [replace_go].
  change (String c (old +:+ rest)) with (String c old +:+ rest).
  rewrite prefix_append. cbn [String.length Nat.pred].
  now rewrite replace_go_skip.
Qed.

(** Text without an opening brace is copied when the pattern starts with one. *)
Lemma replace_go_copy (old new t rest : string) :
  no_open t = true ->
  replace_go (String "{" old) new O (t +:+ rest)
  = t +:+ replace_go (String "{" old) new O rest.
Proof.
  induction t as [|c t IH]; intros Ht; [reflexivity |].
  simpl in Ht. apply andb_true_iff in Ht as [Hc Ht].
  apply negb_true_iff, Ascii.eqb_neq in Hc.
  change (String c t +:+ rest) with (String c (t +:+ rest)).
  cbn [replace_go]. rewrite prefix_head_ne by congruence.
  now rewrite IH.
Qed.

(** Decimal digits are not braces. *)
Lemma digits_brace_free (d : Decimal.uint) :
  brace_free (NilEmpty.string_of_uint d) = true.
Proof. induction d; simpl; auto. Qed.

Lemma digits_close (d1 d2 : Decimal.uint) (x y : string) :
  String.prefix (NilEmpty.string_of_uint d1 +:+ String "}" x)
                (NilEmpty.string_of_uint d2 +:+ String "}" y) = true ->
  d1 = d2.
Proof.
  revert d2; induction d1; intros d2; destruct d2; simpl; intros H;
    try reflexivity; try discriminate H; f_equal; apply IHd1; exact H.
Qed.

Lemma placeholder_unfold (i : nat) (rest : string) :
  placeholder i +:+ rest
  = String "{" (String "{" (Sprintf_d i +:+ String "}" (String "}" rest))).
Proof.
  unfold placeholder. simpl. f_equal. f_equal.
  rewrite append_assoc. reflexivity.
Qed.

Lemma placeholder_cons (i : nat) :
  placeholder i = String "{" (String "{" (Sprintf_d i +:+ "}}")).
Proof. reflexivity. Qed.

Lemma placeholder_hit (i : nat) (new rest : string) :
  ReplaceAll (placeholder i +:+ rest) (placeholder i) new
  = new +:+ ReplaceAll rest (placeholder i) new.
Proof.
  unfold ReplaceAll. rewrite placeholder_cons. apply replace_go_match.
Qed.

Lemma placeholder_miss (i k : nat) (new rest : string) :
  k <> i ->
  ReplaceAll (placeholder k +:+ rest) (placeholder i) new
  = placeholder k +:+ ReplaceAll rest (placeholder i) new.
Proof.
  intros ne. unfold ReplaceAll.
  rewrite (placeholder_unfold k), (placeholder_cons i).
  set (old := String "{" (Sprintf_d i +:+ "}}")).
  assert (Hdig : String.prefix (Sprintf_d i +:+ "}}")
                   (Sprintf_d k +:+ String "}" (String "}" rest)) = false).
  { destruct (String.prefix _ _) eqn:E; [| reflexivity].
    apply digits_close, Unsigned.to_uint_inj in E. congruence. }
  assert (Hhead : forall z, String.prefix old
                   (Sprintf_d k +:+ String "}" z) = false).
  { intros z. unfold old, Sprintf_d.
    destruct (Nat.to_uint k); simpl; reflexivity. }
  cbn [replace_go String.prefix].
  destruct (ascii_dec "{" "{") as [_|bad]; [| now destruct bad].
  fold old. rewrite Hhead. unfold old at 1. cbn [String.prefix].
  destruct (ascii_dec "{" "{") as [_|bad]; [| now destruct bad].
  rewrite Hdig. f_equal. f_equal.
  change (String "}" (String "}" rest)) with ("}}" +:+ rest).
  rewrite <- append_assoc.
  rewrite replace_go_copy.
  - now rewrite placeholder_unfold, append_assoc.
  - rewrite no_open_append. unfold Sprintf_d.
    now rewrite (brace_free_no_open _ (digits_brace_free _)).
Qed.

Lemma text_copied (i : nat) (new t rest : string) :
  brace_free t = true ->
  ReplaceAll (t +:+ rest) (placeholder i) new
  = t +:+ ReplaceAll rest (placeholder i) new.
Proof.
  intros Ht. unfold ReplaceAll. rewrite placeholder_cons.
  apply replace_go_copy, brace_free_no_open, Ht.
Qed.

End StrFacts.

(** ** Facts about the store *)

Section FirstFacts.
Context {A : Type} (cond : A -> bool).

Lemma least_fold_Some (l : list (uuid * A)) (k : uuid) (a : A) :
  foldr (least cond) None l = Some (k, a) -> (k, a) ∈ l /\ cond a = true.
Proof.
  revert k a. induction l as [|[k0 a0] l IH]; intros k a; simpl; [discriminate |].
  unfold least at 1. simpl.
  destruct (cond a0) eqn:Ha0.
  - destruct (foldr (least cond) None l) as [[kb ab]|] eqn:Hb.
    + simpl. destruct (k0 <? kb)%N; intros [= <- <-].
      * split; [left | exact Ha0].
      * destruct (IH _ _ eq_refl). split; [now right | assumption].
    + intros [= <- <-]. split; [left | exact Ha0].
  - intros H. destruct (IH _ _ H). split; [now right | assumption].
Qed.

Lemma least_fold_None (l : list (uuid * A)) (k : uuid) (a : A) :
  foldr (least cond) None l = None -> (k, a) ∈ l -> cond a = false.
Proof.
  induction l as [|[k0 a0] l IH]; simpl; intros Hn Hin.
  - inversion Hin.
  - unfold least in Hn at 1. simpl in Hn.
    destruct (cond a0) eqn:Ha0.
    + destruct (foldr (least cond) None l) as [b|]; [| discriminate].
      destruct (k0 <? b.1)%N; discriminate.
    + apply elem_of_cons in Hin as [[= -> ->]|Hin]; [exact Ha0 | now apply IH].
Qed.

Lemma First_Some (tbl : gmap uuid A) (k : uuid) (a : A) :
  First cond tbl = Some (k, a) -> tbl !! k = Some a /\ cond a = true.
Proof.
  intros H. apply least_fold_Some in H as [Hin Hc].
  split; [now apply elem_of_map_to_list | exact Hc].
Qed.

Lemma First_None (tbl : gmap uuid A) (k : uuid) (a : A) :
  First cond tbl = None -> tbl !! k = Some a -> cond a = false.
Proof.
  intros H Hk. apply (least_fold_None (map_to_list tbl) k a H).
  apply elem_of_map_to_list, Hk.
Qed.

(** A row inserted under a fresh key into a table without a match is the
    one the query finds afterwards. *)
Lemma First_insert_fresh (tbl : gmap uuid A) (k : uuid) (a : A) :
  First cond tbl = None -> cond a = true ->
  First cond (<[k := a]> tbl) = Some (k, a).
Proof.
  intros Hn Ha.
  destruct (First cond (<[k := a]> tbl)) as [[k' a']|] eqn:E.
  - apply First_Some in E as [Hk' Hc'].
    destruct (decide (k = k')) as [<-|ne].
    + rewrite lookup_insert_eq in Hk'. congruence.
    + rewrite lookup_insert_ne in Hk' by exact ne.
      rewrite (First_None _ _ _ Hn Hk') in Hc'. discriminate.
  - pose proof (First_None (<[k := a]> tbl) k a E) as Hc.
    rewrite lookup_insert_eq in Hc. specialize (Hc eq_refl). congruence.
Qed.
End FirstFacts.

Lemma same_contact_refl (orgID : uuid) (phone name : string) :
  same_contact orgID phone
    {| Contact.OrganizationID := orgID; Contact.PhoneNumber := phone;
       Contact.ProfileName := name |} = true.
Proof.
  unfold same_contact. simpl. now rewrite N.eqb_refl, String.eqb_refl.
Qed.

(** The four ways a call of the resolver can go. *)
Lemma getOrCreateContact_cases (insert : string + uuid) (db db1 : Store)
    (orgID : uuid) (phoneNumber name : string) (res : string + (uuid * Contact.t)) :
  let bare := same_contact orgID (normalize phoneNumber) in
  let plus := same_contact orgID ("+" +:+ normalize phoneNumber) in
  let fresh := {| Contact.OrganizationID := orgID;
                  Contact.PhoneNumber := normalize phoneNumber;
                  Contact.ProfileName := name |} in
  getOrCreateContact insert db orgID phoneNumber name = (db1, res) ->
  (db1 = db /\ exists c, res = inr c /\ First bare (contacts db) = Some c)
  \/ (db1 = db /\ exists c, res = inr c /\ First bare (contacts db) = None /\
                            First plus (contacts db) = Some c)
  \/ (db1 = db /\ First bare (contacts db) = None /\ First plus (contacts db) = None /\
      exists e, res = inl e)
  \/ (First bare (contacts db) = None /\ First plus (contacts db) = None /\
      exists id,
        insert = inr id /\ contacts db !! id = None /\ res = inr (id, fresh) /\
        db1 = with_contacts (fun tbl => <[id := fresh]> tbl) db).
Proof.
  intros bare plus fresh. unfold getOrCreateContact, create_contact.
  fold bare plus fresh.
  destruct (First bare (contacts db)) as [c1|] eqn:E1.
  { intros [= <- <-]. left. eauto. }
  destruct (First plus (contacts db)) as [c2|] eqn:E2.
  { intros [= <- <-]. right; left. eauto. }
  destruct insert as [e|id].
  { intros [= <- <-]. right; right; left. eauto. }
  destruct (contacts db !! id) eqn:Eid.
  { intros [= <- <-]. right; right; left. eauto. }
  intros [= <- <-]. right; right; right. eauto 10.
Qed.

(** ** Contact resolution *)

(** C5.  Two phone numbers that agree once a single leading plus sign is
    stripped (the same number, written with or without the plus) resolve to
    the same contact: the first call looks up the stripped number, then the
    stripped number behind a plus, and inserts a contact carrying the stripped
    number only when both lookups miss; a second call for the same
    organization returns the contact of the first and leaves the store as the
    first call left it. *)
Theorem contact_resolution_idempotent
    (insert1 insert2 : string + uuid) (db db1 : Store) (orgID : uuid)
    (phone1 phone2 name1 name2 : string) (c : uuid * Contact.t) :
  normalize phone1 = normalize phone2 ->
  getOrCreateContact insert1 db orgID phone1 name1 = (db1, inr c) ->
  (First (same_contact orgID (normalize phone1)) (contacts db) = Some c /\ db1 = db
   \/ First (same_contact orgID (normalize phone1)) (contacts db) = None /\
      First (same_contact orgID ("+" +:+ normalize phone1)) (contacts db) = Some c /\ db1 = db
   \/ First (same_contact orgID (normalize phone1)) (contacts db) = None /\
      First (same_contact orgID ("+" +:+ normalize phone1)) (contacts db) = None /\
      contacts db !! c.1 = None /\
      c.2 = {| Contact.OrganizationID := orgID;
               Contact.PhoneNumber := normalize phone1;
               Contact.ProfileName := name1 |} /\
      db1 = with_contacts (fun tbl => <[c.1 := c.2]> tbl) db)
  /\ getOrCreateContact insert2 db1 orgID phone2 name2 = (db1, inr c).
Proof.
  intros Hnorm Hcall.
  apply getOrCreateContact_cases in Hcall as
    [[-> (c1 & [= <-] & E1)]
    |[[-> (c1 & [= <-] & E1 & E2)]
    |[[_ (_ & _ & e & [=])]
    |(E1 & E2 & id & _ & Hfresh & [= ->] & ->)]]].
  - split; [left; auto |].
    unfold getOrCreateContact. now rewrite <- Hnorm, E1.
  - split; [right; left; auto |].
    unfold getOrCreateContact. now rewrite <- Hnorm, E1, E2.
  - split; [right; right; simpl; auto 10 |].
    unfold getOrCreateContact. rewrite <- Hnorm. simpl.
    rewrite (First_insert_fresh _ _ _ _ E1 (same_contact_refl _ _ _)).
    reflexivity.
Qed.

(** The number with the plus, then without it: one contact. *)
Lemma contact_resolution_idempotent_witness :
  normalize "+111" = normalize "111" /\
  getOrCreateContact (inr 100%N) (Sample.db (Sample.campaign "queued" None 0 0)) 7%N "+111" "Ana"
  = (with_contacts (fun tbl => <[100%N := {| Contact.OrganizationID := 7%N;
                                            Contact.PhoneNumber := "111";
                                            Contact.ProfileName := "Ana" |}]> tbl)
       (Sample.db (Sample.campaign "queued" None 0 0)),
     inr (100%N, {| Contact.OrganizationID := 7%N; Contact.PhoneNumber := "111";
                    Contact.ProfileName := "Ana" |})) /\
  getOrCreateContact (inr 101%N)
    (with_contacts (fun tbl => <[100%N := {| Contact.OrganizationID := 7%N;
                                            Contact.PhoneNumber := "111";
                                            Contact.ProfileName := "Ana" |}]> tbl)
       (Sample.db (Sample.campaign "queued" None 0 0)))
    7%N "111" "Ana B."
  = (with_contacts (fun tbl => <[100%N := {| Contact.OrganizationID := 7%N;
                                            Contact.PhoneNumber := "111";
                                            Contact.ProfileName := "Ana" |}]> tbl)
       (Sample.db (Sample.campaign "queued" None 0 0)),
     inr (100%N, {| Contact.OrganizationID := 7%N; Contact.PhoneNumber := "111";
                    Contact.ProfileName := "Ana" |})).
Proof.
  assert (Hn : normalize "+111" = normalize "111") by reflexivity.
  assert (Hc : getOrCreateContact (inr 100%N)
                 (Sample.db (Sample.campaign "queued" None 0 0)) 7%N "+111" "Ana"
               = (with_contacts (fun tbl => <[100%N := {| Contact.OrganizationID := 7%N;
                                            Contact.PhoneNumber := "111";
                                            Contact.ProfileName := "Ana" |}]> tbl)
                    (Sample.db (Sample.campaign "queued" None 0 0)),
                  inr (100%N, {| Contact.OrganizationID := 7%N; Contact.PhoneNumber := "111";
                                 Contact.ProfileName := "Ana" |})))
    by (vm_compute; reflexivity).
  split; [exact Hn |]. split; [exact Hc |].
  exact (proj2 (contact_resolution_idempotent (inr 100%N) (inr 101%N) _ _ 7%N
                  "+111" "111" "Ana" "Ana B." _ Hn Hc)).
Defined.

(** ** The start of a run *)

(** C7.  A job whose campaign is missing, or present in a status other than
    queued and processing, changes neither the store nor the published
    snapshots; it returns the load error when the campaign is missing and
    success when it is present. *)
Theorem not_startable_is_noop
    (E : Env) (db : Store) (pub : list Stats.t) (campaignID : uuid) :
  (forall campaign, campaigns db !! campaignID = Some campaign ->
                    startable (Campaign.Status campaign) = false) ->
  processCampaign E db pub campaignID
  = (db, pub,
     Returned (match campaigns db !! campaignID with
               | Some _ => None
               | None => Some ("failed to load campaign: " +:+ err_not_found)
               end)).
Proof.
  intros Hstatus. unfold processCampaign.
  destruct (campaigns db !! campaignID) as [campaign|]; [| reflexivity].
  now rewrite (Hstatus campaign eq_refl).
Qed.

(** A completed campaign delivered again, and a job for an unknown campaign. *)
Lemma not_startable_is_noop_witness :
  processCampaign Sample.quiet (Sample.db (Sample.campaign "completed" (Some Sample.tpl) 3 0)) [] 1%N
  = (Sample.db (Sample.campaign "completed" (Some Sample.tpl) 3 0), [], Returned None)
  /\ processCampaign Sample.quiet (Sample.db (Sample.campaign "queued" (Some Sample.tpl) 0 0)) [] 2%N
     = (Sample.db (Sample.campaign "queued" (Some Sample.tpl) 0 0), [],
        Returned (Some "failed to load campaign: record not found")).
Proof.
  split.
  - apply (not_startable_is_noop Sample.quiet
             (Sample.db (Sample.campaign "completed" (Some Sample.tpl) 3 0)) [] 1%N).
    intros campaign H. vm_compute in H. injection H as <-. reflexivity.
  - apply (not_startable_is_noop Sample.quiet
             (Sample.db (Sample.campaign "queued" (Some Sample.tpl) 0 0)) [] 2%N).
    intros campaign H. vm_compute in H. discriminate H.
Defined.

(** C6.  When no account carries the campaign's account name and
    organization, the run writes the status failed on the campaign, leaves
    the recipients, the contacts, the messages and the published snapshots as
    they were, and returns the error. *)
Theorem account_lookup_failure
    (E : Env) (db : Store) (pub : list Stats.t) (campaignID : uuid) (campaign : Campaign.t) :
  campaigns db !! campaignID = Some campaign ->
  startable (Campaign.Status campaign) = true ->
  First (same_account (Campaign.WhatsAppAccount campaign)
           (Campaign.OrganizationID campaign)) (accounts db) = None ->
  exists db',
    processCampaign E db pub campaignID
    = (db', pub, Returned (Some ("failed to load WhatsApp account: " +:+ err_not_found)))
    /\ campaigns db' !! campaignID = Some (Campaign.set_Status "failed" campaign)
    /\ (forall other, other <> campaignID -> campaigns db' !! other = campaigns db !! other)
    /\ recipients db' = recipients db
    /\ messages db' = messages db
    /\ contacts db' = contacts db
    /\ accounts db' = accounts db.
Proof.
  intros Hc Hs Ha. exists (fail_campaign campaignID db).
  unfold processCampaign. rewrite Hc, Hs, Ha. simpl.
  split; [reflexivity |]. unfold fail_campaign. simpl.
  split; [unfold Update; now rewrite lookup_alter_eq, Hc |].
  split; [intros other ne; unfold Update; now rewrite lookup_alter_ne |].
  auto.
Qed.

Lemma account_lookup_failure_witness :
  exists db',
    processCampaign Sample.quiet
      (Sample.db_no_account (Sample.campaign "queued" (Some Sample.tpl) 0 0)) [] 1%N
    = (db', [], Returned (Some "failed to load WhatsApp account: record not found"))
    /\ campaigns db' !! 1%N = Some (Sample.campaign "failed" (Some Sample.tpl) 0 0)
    /\ recipients db'
       = recipients (Sample.db_no_account (Sample.campaign "queued" (Some Sample.tpl) 0 0))
    /\ messages db' = [].
Proof.
  destruct (account_lookup_failure Sample.quiet
              (Sample.db_no_account (Sample.campaign "queued" (Some Sample.tpl) 0 0)) [] 1%N
              (Sample.campaign "queued" (Some Sample.tpl) 0 0))
    as (db' & Hrun & Hc & _ & Hr & Hm & _).
  - vm_compute. reflexivity.
  - reflexivity.
  - vm_compute. reflexivity.
  - exists db'. split; [exact Hrun |]. split; [exact Hc |]. split; [exact Hr | exact Hm].
Defined.

(** ** Frame facts for the recipient loop *)

Lemma getOrCreateContact_frame (insert : string + uuid) (db db1 : Store)
    (orgID : uuid) (phoneNumber name : string) (res : string + (uuid * Contact.t)) :
  getOrCreateContact insert db orgID phoneNumber name = (db1, res) ->
  campaigns db1 = campaigns db /\ recipients db1 = recipients db /\
  messages db1 = messages db /\ accounts db1 = accounts db.
Proof.
  intros H. apply getOrCreateContact_cases in H as
    [[-> _]|[[-> _]|[[-> _]|(_ & _ & id & _ & _ & _ & ->)]]]; auto.
Qed.

Lemma getOrCreateContact_error (insert : string + uuid) (db db1 : Store)
    (orgID : uuid) (phoneNumber name err : string) :
  getOrCreateContact insert db orgID phoneNumber name = (db1, inl err) -> db1 = db.
Proof.
  intros H. apply getOrCreateContact_cases in H as
    [[-> _]|[[-> _]|[[-> _]|(_ & _ & id & _ & _ & [=] & _)]]]; reflexivity.
Qed.

Ltac deliver_cases H :=
  unfold deliver in H;
  match type of H with
  | context [getOrCreateContact ?a ?b ?c ?d ?e] =>
      let db := fresh "db" in
      let err := fresh "err" in
      let contactID := fresh "contactID" in
      let contact := fresh "contact" in
      let Hres := fresh "Hres" in
      destruct (getOrCreateContact a b c d e) as [db [err|[contactID contact]]] eqn:Hres;
      [| match type of H with
         | context [sendTemplateMessage ?s ?x ?y ?z] =>
             let reason := fresh "reason" in
             let reply := fresh "reply" in
             let Hsend := fresh "Hsend" in
             destruct (sendTemplateMessage s x y z) as [reason|reply] eqn:Hsend
         end];
      injection H as <- <-;
      pose proof (getOrCreateContact_frame _ _ _ _ _ _ _ Hres) as (Hfc & Hfr & Hfm & Hfa)
  end.

Lemma deliver_recipients_other (E : Env) (campaignID : uuid) (campaign : Campaign.t)
    (account : Account.t) (i : nat) (rid : uuid) (recipient : Recipient.t)
    (l l' : Run) (f : flow) (k : uuid) :
  deliver E campaignID campaign account i rid recipient l = (l', f) ->
  k <> rid ->
  recipients (store l') !! k = recipients (store l) !! k.
Proof.
  intros H ne. deliver_cases H; simpl; unfold Update;
    rewrite ?lookup_alter_ne by congruence; now rewrite Hfr.
Qed.

Lemma deliver_campaign_kept (E : Env) (campaignID : uuid) (campaign : Campaign.t)
    (account : Account.t) (i : nat) (rid : uuid) (recipient : Recipient.t)
    (l l' : Run) (f : flow) :
  deliver E campaignID campaign account i rid recipient l = (l', f) ->
  is_Some (campaigns (store l) !! campaignID) ->
  is_Some (campaigns (store l') !! campaignID).
Proof.
  intros H [c Hc]. deliver_cases H; simpl; unfold Update;
    rewrite ?lookup_alter_eq, Hfc, Hc; simpl; eauto.
Qed.

Lemma deliver_counts (E : Env) (campaignID : uuid) (campaign : Campaign.t)
    (account : Account.t) (i : nat) (rid : uuid) (recipient : Recipient.t)
    (l l' : Run) :
  deliver E campaignID campaign account i rid recipient l = (l', Continue) ->
  sentCount l' = incr (sentCount l) /\ failedCount l' = failedCount l
  \/ sentCount l' = sentCount l /\ failedCount l' = incr (failedCount l).
Proof.
  intros H. unfold deliver in H.
  destruct (getOrCreateContact _ _ _ _ _) as [db [err|[contactID contact]]].
  - injection H as <-. right. split; reflexivity.
  - destruct (sendTemplateMessage _ _ _ _) as [reason|[id [e|]]]; [discriminate | |];
      injection H as <-; simpl; auto.
Qed.

Lemma management_frame (E : Env) (campaignID : uuid) (i : nat) (db : Store) :
  recipients (management E campaignID i db) = recipients db /\
  contacts (management E campaignID i db) = contacts db /\
  messages (management E campaignID i db) = messages db /\
  accounts (management E campaignID i db) = accounts db.
Proof. unfold management. destruct (management_status E i); auto. Qed.

Lemma management_campaign_kept (E : Env) (campaignID : uuid) (i : nat) (db : Store) :
  is_Some (campaigns db !! campaignID) ->
  is_Some (campaigns (management E campaignID i db) !! campaignID).
Proof.
  intros [c Hc]. unfold management. destruct (management_status E i); simpl; [| eauto].
  unfold Update. rewrite lookup_alter_eq, Hc. simpl. eauto.
Qed.

(** The three ways an iteration can go. *)
Lemma iteration_cases (E : Env) (campaignID : uuid) (campaign : Campaign.t)
    (account : Account.t) (i : nat) (r : uuid * Recipient.t) (l l' : Run) (f : flow) :
  iteration E campaignID campaign account i r l = (l', f) ->
  (exists err, ctx_Err E i = Some err /\ l' = l /\ f = Break (Returned (Some err)))
  \/ (ctx_Err E i = None /\
      stopped (polled_status E campaignID i (management E campaignID i (store l))) = true /\
      l' = on_store (management E campaignID i) l /\ f = Break (Returned None))
  \/ (ctx_Err E i = None /\
      stopped (polled_status E campaignID i (management E campaignID i (store l))) = false /\
      deliver E campaignID campaign account i r.1 r.2
        (on_store (management E campaignID i) l) = (l', f)).
Proof.
  unfold iteration. destruct (ctx_Err E i) as [err|].
  - intros [= <- <-]. left. eauto.
  - simpl. destruct (stopped _) eqn:St.
    + intros [= <- <-]. right; left. auto.
    + intros H. right; right. auto.
Qed.

Lemma iteration_recipients_other (E : Env) (campaignID : uuid) (campaign : Campaign.t)
    (account : Account.t) (i : nat) (r : uuid * Recipient.t) (l l' : Run) (f : flow) (k : uuid) :
  iteration E campaignID campaign account i r l = (l', f) ->
  k <> r.1 ->
  recipients (store l') !! k = recipients (store l) !! k.
Proof.
  intros H ne. apply iteration_cases in H as
    [(err & _ & -> & _)|[(_ & _ & -> & _)|(_ & _ & H)]].
  - reflexivity.
  - simpl. now rewrite (proj1 (management_frame E campaignID i (store l))).
  - rewrite (deliver_recipients_other _ _ _ _ _ _ _ _ _ _ k H ne). simpl.
    now rewrite (proj1 (management_frame E campaignID i (store l))).
Qed.

Lemma iteration_campaign_kept (E : Env) (campaignID : uuid) (campaign : Campaign.t)
    (account : Account.t) (i : nat) (r : uuid * Recipient.t) (l l' : Run) (f : flow) :
  iteration E campaignID campaign account i r l = (l', f) ->
  is_Some (campaigns (store l) !! campaignID) ->
  is_Some (campaigns (store l') !! campaignID).
Proof.
  intros H Hc. apply iteration_cases in H as
    [(err & _ & -> & _)|[(_ & _ & -> & _)|(_ & _ & H)]].
  - exact Hc.
  - simpl. now apply management_campaign_kept.
  - apply (deliver_campaign_kept _ _ _ _ _ _ _ _ _ _ H). simpl.
    now apply management_campaign_kept.
Qed.

Lemma iteration_counts (E : Env) (campaignID : uuid) (campaign : Campaign.t)
    (account : Account.t) (i : nat) (r : uuid * Recipient.t) (l l' : Run) :
  iteration E campaignID campaign account i r l = (l', Continue) ->
  sentCount l' = incr (sentCount l) /\ failedCount l' = failedCount l
  \/ sentCount l' = sentCount l /\ failedCount l' = incr (failedCount l).
Proof.
  intros H. apply iteration_cases in H as
    [(err & _ & _ & [=])|[(_ & _ & _ & [=])|(_ & _ & H)]].
  apply deliver_counts in H. exact H.
Qed.

(** A loop over [pre ++ post] whose prefix falls through goes on with [post]
    at the next position. *)
Lemma loop_app (E : Env) (campaignID : uuid) (campaign : Campaign.t)
    (account : Account.t) (pre post : list (uuid * Recipient.t)) :
  forall (i : nat) (l l' : Run),
    loop E campaignID campaign account i pre l = (l', Continue) ->
    loop E campaignID campaign account i (pre ++ post) l
    = loop E campaignID campaign account (i + length pre) post l'.
Proof.
  induction pre as [|r pre IH]; intros i l l' H; simpl in *.
  - injection H as <-. now rewrite Nat.add_0_r.
  - destruct (iteration E campaignID campaign account i r l) as [l1 [|o]] eqn:Hit.
    + rewrite (IH _ _ _ H). f_equal. lia.
    + discriminate.
Qed.

Lemma loop_recipients_other (E : Env) (campaignID : uuid) (campaign : Campaign.t)
    (account : Account.t) (rs : list (uuid * Recipient.t)) (k : uuid) :
  forall (i : nat) (l l' : Run) (f : flow),
    loop E campaignID campaign account i rs l = (l', f) ->
    k ∉ rs.*1 ->
    recipients (store l') !! k = recipients (store l) !! k.
Proof.
  induction rs as [|r rs IH]; intros i l l' f H Hk; simpl in *.
  - now injection H as <- _.
  - apply not_elem_of_cons in Hk as [ne Hk].
    destruct (iteration E campaignID campaign account i r l) as [l1 [|o]] eqn:Hit.
    + rewrite (IH _ _ _ _ H Hk).
      now apply (iteration_recipients_other _ _ _ _ _ _ _ _ _ _ Hit).
    + injection H as <- _.
      now apply (iteration_recipients_other _ _ _ _ _ _ _ _ _ _ Hit).
Qed.

Lemma loop_campaign_kept (E : Env) (campaignID : uuid) (campaign : Campaign.t)
    (account : Account.t) (rs : list (uuid * Recipient.t)) :
  forall (i : nat) (l l' : Run) (f : flow),
    loop E campaignID campaign account i rs l = (l', f) ->
    is_Some (campaigns (store l) !! campaignID) ->
    is_Some (campaigns (store l') !! campaignID).
Proof.
  induction rs as [|r rs IH]; intros i l l' f H Hc; simpl in *.
  - now injection H as <- _.
  - destruct (iteration E campaignID campaign account i r l) as [l1 [|o]] eqn:Hit.
    + apply (IH _ _ _ _ H). now apply (iteration_campaign_kept _ _ _ _ _ _ _ _ _ Hit).
    + injection H as <- _. now apply (iteration_campaign_kept _ _ _ _ _ _ _ _ _ Hit).
Qed.

(** [x++] adds one below the largest [int]. *)
Lemma incr_below_max (z : Z) : int_min <= z < int_max -> incr z = z + 1.
Proof.
  unfold incr, int_wrap, int_min, int_max. intros H.
  rewrite Z.mod_small by lia. lia.
Qed.

(** Every iteration that falls through moves exactly one of the two counters,
    so a loop that falls through adds the number of recipients to their sum. *)
Lemma loop_counts (E : Env) (campaignID : uuid) (campaign : Campaign.t)
    (account : Account.t) (rs : list (uuid * Recipient.t)) :
  forall (i : nat) (l l' : Run),
    loop E campaignID campaign account i rs l = (l', Continue) ->
    0 <= sentCount l -> 0 <= failedCount l ->
    sentCount l + failedCount l + Z.of_nat (length rs) <= int_max ->
    0 <= sentCount l' /\ 0 <= failedCount l' /\
    sentCount l' + failedCount l' = sentCount l + failedCount l + Z.of_nat (length rs).
Proof.
  induction rs as [|r rs IH]; intros i l l' H Hs Hf Hmax.
  - simpl in H. injection H as <-. simpl. lia.
  - simpl in H.
    destruct (iteration E campaignID campaign account i r l) as [l1 [|o]] eqn:Hit;
      [| discriminate].
    assert (Hlen : Z.of_nat (length (r :: rs)) = Z.of_nat (length rs) + 1)
      by (simpl length; lia).
    rewrite Hlen in *.
    assert (Hmin : int_min <= 0) by (unfold int_min; lia).
    apply iteration_counts in Hit as [[H1 H2]|[H1 H2]];
      rewrite incr_below_max in * by lia;
      destruct (IH _ _ _ H) as (? & ? & ?); lia.
Qed.

(** ** One recipient *)

(** C9.  When the contact of a recipient cannot be resolved, the iteration
    marks that recipient failed with the fixed text, adds one to the failed
    counter ([failedCount++]), saves no message, publishes nothing, and the
    loop goes on with the recipient behind it. *)
Theorem contact_failure_continues
    (E : Env) (campaignID : uuid) (campaign : Campaign.t) (account : Account.t)
    (i : nat) (rid : uuid) (recipient : Recipient.t)
    (rest : list (uuid * Recipient.t)) (l : Run) (db : Store) (err : string) :
  ctx_Err E i = None ->
  stopped (polled_status E campaignID i (management E campaignID i (store l))) = false ->
  getOrCreateContact (contact_insert E i) (management E campaignID i (store l))
    (Campaign.OrganizationID campaign)
    (Recipient.PhoneNumber recipient) (Recipient.RecipientName recipient) = (db, inl err) ->
  exists l',
    iteration E campaignID campaign account i (rid, recipient) l = (l', Continue)
    /\ loop E campaignID campaign account i ((rid, recipient) :: rest) l
       = loop E campaignID campaign account (S i) rest l'
    /\ recipients (store l') = alter Recipient.mark_contact_failed rid (recipients (store l))
    /\ (forall row, recipients (store l) !! rid = Some row ->
          exists row', recipients (store l') !! rid = Some row'
                       /\ Recipient.Status row' = "failed"
                       /\ Recipient.ErrorMessage row' = "Failed to create contact")
    /\ failedCount l' = incr (failedCount l)
    /\ sentCount l' = sentCount l
    /\ messages (store l') = messages (store l)
    /\ contacts (store l') = contacts (store l)
    /\ published l' = published l.
Proof.
  intros Hctx Hpoll Hres.
  pose proof (getOrCreateContact_error _ _ _ _ _ _ _ Hres) as ->.
  destruct (management_frame E campaignID i (store l)) as (Hr & Hct & Hm & _).
  eexists. split.
  { unfold iteration. rewrite Hctx. simpl. rewrite Hpoll.
    unfold deliver. simpl. rewrite Hres. reflexivity. }
  split.
  { simpl loop at 1. unfold iteration. rewrite Hctx. simpl. rewrite Hpoll.
    unfold deliver. simpl. rewrite Hres. reflexivity. }
  simpl. rewrite Hr, Hct, Hm. unfold Update.
  split; [reflexivity |].
  split.
  { intros row Hrow. eexists. rewrite lookup_alter_eq, Hrow. simpl. eauto. }
  auto 10.
Qed.

Lemma contact_failure_continues_witness :
  exists l',
    iteration (Sample.env (fun _ => None) (fun _ => false) (fun _ => inl "connection refused"))
      1%N (Sample.campaign "processing" (Some Sample.tpl) 0 0) Sample.account 0
      (10%N, Sample.recipient "+111" "Ana")
      (Sample.run (Sample.db (Sample.campaign "processing" (Some Sample.tpl) 0 0)))
    = (l', Continue)
    /\ failedCount l' = 1
    /\ messages (store l') = []
    /\ (exists row', recipients (store l') !! 10%N = Some row'
                     /\ Recipient.Status row' = "failed"
                     /\ Recipient.ErrorMessage row' = "Failed to create contact").
Proof.
  destruct (contact_failure_continues
              (Sample.env (fun _ => None) (fun _ => false) (fun _ => inl "connection refused"))
              1%N (Sample.campaign "processing" (Some Sample.tpl) 0 0) Sample.account 0
              10%N (Sample.recipient "+111" "Ana") []
              (Sample.run (Sample.db (Sample.campaign "processing" (Some Sample.tpl) 0 0)))
              (Sample.db (Sample.campaign "processing" (Some Sample.tpl) 0 0))
              "failed to create contact: connection refused")
    as (l' & Hit & _ & _ & Hrow & Hf & _ & Hm & _).
  - reflexivity.
  - vm_compute. reflexivity.
  - vm_compute. reflexivity.
  - exists l'. split; [exact Hit |].
    split; [rewrite Hf; reflexivity |].
    split; [rewrite Hm; reflexivity |].
    apply (Hrow (Sample.recipient "+111" "Ana")). vm_compute. reflexivity.
Defined.

(** C10.  When the status poll of an iteration fails, the status examined is
    the zero value, which is neither paused nor cancelled: whatever status the
    store holds, the iteration goes on to deliver to the recipient, exactly as
    an iteration whose poll succeeds and reads the status processing; it
    never makes the call return. *)
Theorem failed_poll_is_treated_as_active
    (E : Env) (campaignID : uuid) (campaign : Campaign.t) (account : Account.t)
    (i : nat) (r : uuid * Recipient.t) (l : Run) :
  ctx_Err E i = None ->
  poll_fails E i = true ->
  polled_status E campaignID i (management E campaignID i (store l)) = ""
  /\ iteration E campaignID campaign account i r l
     = deliver E campaignID campaign account i r.1 r.2 (on_store (management E campaignID i) l)
  /\ (forall current,
        campaigns (management E campaignID i (store l)) !! campaignID = Some current ->
        Campaign.Status current = "processing" ->
        iteration (poll_succeeds E) campaignID campaign account i r l
        = iteration E campaignID campaign account i r l)
  /\ (forall l' err,
        iteration E campaignID campaign account i r l <> (l', Break (Returned err))).
Proof.
  intros Hctx Hpoll.
  assert (Hst : polled_status E campaignID i (management E campaignID i (store l)) = "")
    by (unfold polled_status; now rewrite Hpoll).
  assert (Hit : iteration E campaignID campaign account i r l
                = deliver E campaignID campaign account i r.1 r.2
                    (on_store (management E campaignID i) l)).
  { unfold iteration. rewrite Hctx. simpl. rewrite Hst. reflexivity. }
  split; [exact Hst |]. split; [exact Hit |]. split.
  - intros current Hcur Hproc. rewrite Hit.
    unfold iteration. simpl. rewrite Hctx. simpl.
    unfold polled_status. simpl.
    change (management (poll_succeeds E) campaignID i (store l))
      with (management E campaignID i (store l)).
    rewrite Hcur, Hproc. reflexivity.
  - intros l' err. rewrite Hit. intros H.
    unfold deliver in H.
    destruct (getOrCreateContact _ _ _ _ _) as [db [e|[contactID contact]]];
      [discriminate |].
    destruct (sendTemplateMessage _ _ _ _); discriminate.
Qed.

(** The store says cancelled, the poll fails, and the recipient is sent to. *)
Lemma failed_poll_is_treated_as_active_witness :
  exists l',
    iteration (Sample.env (fun _ => Some "cancelled") (fun _ => true)
                 (fun i => inr (N.of_nat (100 + i))))
      1%N (Sample.campaign "processing" (Some Sample.tpl) 0 0) Sample.account 0
      (10%N, Sample.recipient "+111" "Ana")
      (Sample.run (Sample.db (Sample.campaign "processing" (Some Sample.tpl) 0 0)))
    = (l', Continue)
    /\ sentCount l' = 1
    /\ (Campaign.Status <$> campaigns (store l') !! 1%N) = Some "cancelled"
    /\ (Recipient.Status <$> recipients (store l') !! 10%N) = Some "sent".
Proof.
  destruct (failed_poll_is_treated_as_active
              (Sample.env (fun _ => Some "cancelled") (fun _ => true)
                 (fun i => inr (N.of_nat (100 + i))))
              1%N (Sample.campaign "processing" (Some Sample.tpl) 0 0) Sample.account 0
              (10%N, Sample.recipient "+111" "Ana")
              (Sample.run (Sample.db (Sample.campaign "processing" (Some Sample.tpl) 0 0))))
    as (_ & Hit & _ & _).
  - reflexivity.
  - reflexivity.
  - eexists. split; [rewrite Hit; vm_compute; reflexivity |].
    repeat split; vm_compute; reflexivity.
Defined.

(** A campaign without a template panics at the first send. *)
Lemma deliver_without_template (E : Env) (campaignID : uuid) (campaign : Campaign.t)
    (account : Account.t) (i : nat) (rid : uuid) (recipient : Recipient.t)
    (l : Run) (db : Store) (c : uuid * Contact.t) :
  Campaign.Template campaign = None ->
  getOrCreateContact (contact_insert E i) (store l)
    (Campaign.OrganizationID campaign)
    (Recipient.PhoneNumber recipient) (Recipient.RecipientName recipient) = (db, inr c) ->
  deliver E campaignID campaign account i rid recipient l
  = ({| store := db; published := published l;
        sentCount := sentCount l; failedCount := failedCount l |},
     Break (Panicked nil_dereference)).
Proof.
  intros Ht Hres. unfold deliver. rewrite Hres. destruct c as [contactID contact].
  cbv beta iota. rewrite Ht. reflexivity.
Qed.

(** X17.  For a recipient whose contact resolves and whose send reaches the
    gateway (the campaign carries a template), one message is saved whatever
    the gateway answers, tagged with the campaign's identifier and the
    recipient's name and holding the rendered body.  If the answer is an
    error, the message is failed with the error's text, the recipient is
    marked failed with that text, and [failedCount++] runs; otherwise the
    message is sent, the recipient is marked sent with the provider's
    identifier and the current time, and [sentCount++] runs. *)
Theorem delivery_records_outcome
    (E : Env) (campaignID : uuid) (campaign : Campaign.t) (account : Account.t)
    (i : nat) (rid : uuid) (recipient row : Recipient.t) (l : Run)
    (db : Store) (contactID : uuid) (contact : Contact.t) (reply : Gateway.reply) :
  getOrCreateContact (contact_insert E i) (store l)
    (Campaign.OrganizationID campaign)
    (Recipient.PhoneNumber recipient) (Recipient.RecipientName recipient)
  = (db, inr (contactID, contact)) ->
  sendTemplateMessage (gateway E i) account (Campaign.Template campaign) recipient
  = inr reply ->
  recipients (store l) !! rid = Some row ->
  exists l' message row',
    deliver E campaignID campaign account i rid recipient l = (l', Continue)
    /\ messages (store l') = messages (store l) ++ [message]
    /\ Message.ContactID message = contactID
    /\ Message.Metadata message !! "campaign_id" = Some (JString (uuid_String campaignID))
    /\ Message.Metadata message !! "recipient_name"
       = Some (JString (Recipient.RecipientName recipient))
    /\ (forall tpl, Campaign.Template campaign = Some tpl ->
          Message.Content message
          = render (Template.BodyContent tpl) (Recipient.TemplateParams recipient))
    /\ recipients (store l') !! rid = Some row'
    /\ Recipient.WhatsAppMessageID row' = reply.1
    /\ match reply.2 with
       | Some err =>
           Message.Status message = "failed" /\ Message.ErrorMessage message = err
           /\ Recipient.Status row' = "failed" /\ Recipient.ErrorMessage row' = err
           /\ Recipient.SentAt row' = Recipient.SentAt row
           /\ failedCount l' = incr (failedCount l) /\ sentCount l' = sentCount l
       | None =>
           Message.Status message = "sent"
           /\ Recipient.Status row' = "sent" /\ Recipient.SentAt row' = Some (now E i)
           /\ sentCount l' = incr (sentCount l) /\ failedCount l' = failedCount l
       end.
Proof.
  intros Hres Hsend Hrow.
  destruct (getOrCreateContact_frame _ _ _ _ _ _ _ Hres) as (_ & Hr & Hm & _).
  unfold deliver. rewrite Hres. cbv beta iota. rewrite Hsend.
  destruct reply as [waMessageID [err|]]; simpl;
    eexists; eexists; eexists;
    (split; [reflexivity |]); simpl; rewrite Hm, Hr;
    (split; [reflexivity |]); (split; [reflexivity |]);
    (split; [reflexivity |]); (split; [reflexivity |]);
    (split; [intros tpl Ht; simpl; rewrite Ht; reflexivity |]);
    unfold Update; rewrite lookup_alter_eq, Hrow; simpl;
    (split; [reflexivity |]); auto 10.
Qed.

(** The rejected send of the sample gateway. *)
Lemma delivery_records_outcome_witness :
  exists l' message row',
    deliver Sample.quiet 1%N (Sample.campaign "processing" (Some Sample.tpl) 0 0)
      Sample.account 1 11%N (Sample.recipient "222" "Bo")
      (Sample.run (Sample.db (Sample.campaign "processing" (Some Sample.tpl) 0 0)))
    = (l', Continue)
    /\ messages (store l') = [message]
    /\ Message.Status message = "failed"
    /\ Message.ErrorMessage message = "template rejected"
    /\ recipients (store l') !! 11%N = Some row'
    /\ Recipient.Status row' = "failed"
    /\ Recipient.ErrorMessage row' = "template rejected"
    /\ failedCount l' = 1.
Proof.
  destruct (delivery_records_outcome Sample.quiet 1%N
              (Sample.campaign "processing" (Some Sample.tpl) 0 0) Sample.account 1 11%N
              (Sample.recipient "222" "Bo") (Sample.recipient "222" "Bo")
              (Sample.run (Sample.db (Sample.campaign "processing" (Some Sample.tpl) 0 0)))
              (with_contacts
                 (fun tbl => <[101%N := {| Contact.OrganizationID := 7%N;
                                          Contact.PhoneNumber := "222";
                                          Contact.ProfileName := "Bo" |}]> tbl)
                 (Sample.db (Sample.campaign "processing" (Some Sample.tpl) 0 0)))
              101%N
              {| Contact.OrganizationID := 7%N; Contact.PhoneNumber := "222";
                 Contact.ProfileName := "Bo" |}
              ("", Some "template rejected"))
    as (l' & message & row' & Hd & Hm & _ & _ & _ & _ & Hrow & _ & Hreply).
  - vm_compute. reflexivity.
  - vm_compute. reflexivity.
  - vm_compute. reflexivity.
  - simpl in Hreply. destruct Hreply as (Hs & He & Hrs & Hre & _ & Hf & _).
    exists l', message, row'. repeat split; assumption.
Defined.

(** C8 on the code: campaign 1 carries no template and recipient 10 is
    pending.  The contact of the recipient resolves, yet no message is saved:
    the call panics on the nil template inside [sendTemplateMessage], the
    recipient row stays pending and neither counter moves. *)
Lemma delivery_without_template_writes_nothing :
  exists db c l',
    getOrCreateContact (contact_insert Sample.quiet 0)
      (Sample.db (Sample.campaign "processing" None 0 0)) 7%N "+111" "Ana" = (db, inr c)
    /\ deliver Sample.quiet 1%N (Sample.campaign "processing" None 0 0)
         Sample.account 0 10%N (Sample.recipient "+111" "Ana")
         (Sample.run (Sample.db (Sample.campaign "processing" None 0 0)))
       = (l', Break (Panicked nil_dereference))
    /\ messages (store l') = []
    /\ recipients (store l') !! 10%N = Some (Sample.recipient "+111" "Ana")
    /\ Recipient.Status (Sample.recipient "+111" "Ana") = "pending"
    /\ sentCount l' = 0 /\ failedCount l' = 0
    /\ published l' = [].
Proof.
  eexists. eexists. eexists.
  split; [vm_compute; reflexivity |].
  split; [vm_compute; reflexivity |].
  repeat split; vm_compute; reflexivity.
Qed.

(** ** A campaign without a template *)

(** C3 on the code: campaign 1 is queued and carries no template, its account
    exists and three recipients are pending.  The run neither fails the
    campaign nor returns an error; it panics on the nil template at the first
    send and leaves the campaign in the status processing. *)
Lemma missing_template_panics :
  exists db',
    processCampaign Sample.quiet (Sample.db (Sample.campaign "queued" None 0 0)) [] 1%N
    = (db', [], Panicked nil_dereference)
    /\ campaigns db' !! 1%N = Some (Sample.campaign "processing" None 0 0)
    /\ messages db' = []
    /\ recipients db' = recipients (Sample.db (Sample.campaign "queued" None 0 0)).
Proof.
  eexists. split; [vm_compute; reflexivity |].
  repeat split; vm_compute; reflexivity.
Qed.

(** Without a pending recipient the same campaign is completed. *)
Lemma missing_template_completes_when_idle :
  exists db',
    processCampaign Sample.quiet
      {| campaigns := {[ 1%N := Sample.campaign "queued" None 0 0 ]};
         accounts := {[ 3%N := Sample.account ]};
         recipients := ∅; contacts := ∅; messages := [] |} [] 1%N
    = (db', [progress 1%N (Sample.campaign "queued" None 0 0) "completed" 0 0],
       Returned None)
    /\ (Campaign.Status <$> campaigns db' !! 1%N) = Some "completed".
Proof.
  eexists. split; vm_compute; reflexivity.
Qed.

(** ** The recipients of a run *)

Lemma NoDup_fst_filter {A : Type} (p : uuid * A -> bool) (rows : list (uuid * A)) :
  NoDup rows.*1 -> NoDup (List.filter p rows).*1.
Proof.
  induction rows as [|row rows IH]; simpl; intros Hnd; [constructor |].
  apply NoDup_cons in Hnd as [Hnotin Hnd].
  destruct (p row); [| now apply IH].
  simpl. apply NoDup_cons. split; [| now apply IH].
  intros Hin. apply Hnotin.
  apply list_elem_of_fmap in Hin as (y & -> & Hy).
  apply list_elem_of_fmap. exists y. split; [reflexivity |].
  apply list_elem_of_In in Hy. apply filter_In in Hy as [Hy _].
  now apply list_elem_of_In.
Qed.

Lemma pending_NoDup (campaignID : uuid) (db : Store) :
  NoDup (pending campaignID db).*1.
Proof. apply NoDup_fst_filter, NoDup_fst_map_to_list. Qed.

Lemma pending_lookup (campaignID : uuid) (db : Store) (k : uuid) (x : Recipient.t) :
  (k, x) ∈ pending campaignID db ->
  recipients db !! k = Some x /\ Recipient.Status x = "pending".
Proof.
  intros Hin. apply list_elem_of_In, filter_In in Hin as [Hin Hp].
  apply list_elem_of_In, elem_of_map_to_list in Hin.
  split; [exact Hin |].
  unfold is_pending in Hp. simpl in Hp.
  apply andb_true_iff in Hp as [_ Hp]. now apply String.eqb_eq in Hp.
Qed.

Lemma stopped_poll_reads_store (E : Env) (campaignID : uuid) (i : nat) (db : Store) :
  stopped (polled_status E campaignID i db) = true ->
  poll_fails E i = false /\
  exists current, campaigns db !! campaignID = Some current
                  /\ stopped (Campaign.Status current) = true.
Proof.
  unfold polled_status. destruct (poll_fails E i); [discriminate |].
  destruct (campaigns db !! campaignID) as [current|]; [| discriminate].
  eauto.
Qed.

(** ** Pause and cancel *)

(** C2.  Let the pending recipients be [pre ++ r :: post], let the loop fall
    through [pre], and let the status polled before [r] be paused or
    cancelled.  Then the run returns success at once: the store is the one
    the prefix left (with the status the management API wrote), so no
    recipient, message or contact is touched from [r] on, [r] and the
    recipients behind it are still the pending rows that were loaded, and the
    campaign keeps the paused or cancelled status. *)
Theorem stop_on_pause_or_cancel
    (E : Env) (db : Store) (pub : list Stats.t) (campaignID : uuid)
    (campaign : Campaign.t) (accountID : uuid) (account : Account.t)
    (pre post : list (uuid * Recipient.t)) (r : uuid * Recipient.t) (l : Run) :
  campaigns db !! campaignID = Some campaign ->
  startable (Campaign.Status campaign) = true ->
  First (same_account (Campaign.WhatsAppAccount campaign)
           (Campaign.OrganizationID campaign)) (accounts db) = Some (accountID, account) ->
  find_recipients_err E = None ->
  pending campaignID db = pre ++ r :: post ->
  loop E campaignID campaign account O pre
    (enter (mark_processing campaignID db) pub campaign) = (l, Continue) ->
  ctx_Err E (length pre) = None ->
  stopped (polled_status E campaignID (length pre)
             (management E campaignID (length pre) (store l))) = true ->
  exists db',
    processCampaign E db pub campaignID = (db', published l, Returned None)
    /\ db' = management E campaignID (length pre) (store l)
    /\ recipients db' = recipients (store l)
    /\ messages db' = messages (store l)
    /\ contacts db' = contacts (store l)
    /\ (forall k x, (k, x) ∈ r :: post ->
          recipients db' !! k = Some x /\ Recipient.Status x = "pending")
    /\ (exists current, campaigns db' !! campaignID = Some current
                        /\ stopped (Campaign.Status current) = true
                        /\ Campaign.Status current <> "completed").
Proof.
  intros Hc Hs Ha Hfind Hpending Hpre Hctx Hstop.
  exists (management E campaignID (length pre) (store l)).
  destruct (management_frame E campaignID (length pre) (store l)) as (Hr & Hct & Hm & _).
  split.
  { unfold processCampaign. rewrite Hc, Hs, Ha, Hfind. simpl.
    change (pending campaignID (mark_processing campaignID db))
      with (pending campaignID db).
    rewrite Hpending, (loop_app _ _ _ _ _ _ _ _ _ Hpre). simpl.
    unfold iteration. rewrite Hctx. simpl. rewrite Hstop. reflexivity. }
  split; [reflexivity |]. split; [exact Hr |]. split; [exact Hm |]. split; [exact Hct |].
  split.
  - intros k x Hin. rewrite Hr.
    assert (Hk : k ∉ pre.*1).
    { pose proof (pending_NoDup campaignID db) as Hnd.
      rewrite Hpending, fmap_app in Hnd.
      apply NoDup_app in Hnd as (_ & Hdisj & _).
      intros Hkin. apply (Hdisj k Hkin).
      apply list_elem_of_fmap. exists (k, x). auto. }
    rewrite (loop_recipients_other _ _ _ _ _ k _ _ _ _ Hpre Hk). simpl.
    apply (pending_lookup campaignID). rewrite Hpending.
    apply elem_of_app. now right.
  - apply stopped_poll_reads_store in Hstop as (_ & current & Hcur & Hst).
    exists current. split; [exact Hcur |]. split; [exact Hst |].
    intros Heq. rewrite Heq in Hst. discriminate Hst.
Qed.

(** The specification's scenario: cancelled after the first recipient. *)
Lemma stop_on_pause_or_cancel_witness :
  exists db',
    processCampaign Sample.cancelling
      (Sample.db (Sample.campaign "queued" (Some Sample.tpl) 0 0)) [] 1%N
    = (db', [progress 1%N (Sample.campaign "queued" (Some Sample.tpl) 0 0) "processing" 1 0],
       Returned None)
    /\ (forall k x, (k, x) ∈ [(12%N, Sample.recipient "+333" "Cy");
                              (11%N, Sample.recipient "222" "Bo")] ->
          recipients db' !! k = Some x /\ Recipient.Status x = "pending")
    /\ (exists current, campaigns db' !! 1%N = Some current
                        /\ stopped (Campaign.Status current) = true
                        /\ Campaign.Status current <> "completed").
Proof.
  edestruct (stop_on_pause_or_cancel Sample.cancelling
               (Sample.db (Sample.campaign "queued" (Some Sample.tpl) 0 0)) [] 1%N
               (Sample.campaign "queued" (Some Sample.tpl) 0 0) 3%N Sample.account
               [(10%N, Sample.recipient "+111" "Ana")]
               [(11%N, Sample.recipient "222" "Bo")]
               (12%N, Sample.recipient "+333" "Cy"))
    as (db' & Hrun & _ & _ & _ & _ & Hrest & Hstatus).
  - vm_compute. reflexivity.
  - reflexivity.
  - vm_compute. reflexivity.
  - reflexivity.
  - vm_compute. reflexivity.
  - vm_compute. reflexivity.
  - reflexivity.
  - vm_compute. reflexivity.
  - exists db'. split; [exact Hrun |]. split; [exact Hrest | exact Hstatus].
Defined.

(** ** Counters of a completed run *)

(** C1, as the code has it.  When the loop falls through all the recipients
    that were pending at the start, the campaign is written as completed
    with counters whose sum is the sum the campaign carried when it was
    loaded plus the number of those recipients (for counters that start
    non-negative and stay within [int]). *)
Theorem completed_run_counts
    (E : Env) (db : Store) (pub : list Stats.t) (campaignID : uuid)
    (campaign : Campaign.t) (accountID : uuid) (account : Account.t) (l : Run) :
  campaigns db !! campaignID = Some campaign ->
  startable (Campaign.Status campaign) = true ->
  First (same_account (Campaign.WhatsAppAccount campaign)
           (Campaign.OrganizationID campaign)) (accounts db) = Some (accountID, account) ->
  find_recipients_err E = None ->
  loop E campaignID campaign account O (pending campaignID db)
    (enter (mark_processing campaignID db) pub campaign) = (l, Continue) ->
  0 <= Campaign.SentCount campaign ->
  0 <= Campaign.FailedCount campaign ->
  Campaign.SentCount campaign + Campaign.FailedCount campaign
    + Z.of_nat (length (pending campaignID db)) <= int_max ->
  exists db' pub' final,
    processCampaign E db pub campaignID = (db', pub', Returned None)
    /\ campaigns db' !! campaignID = Some final
    /\ Campaign.Status final = "completed"
    /\ Campaign.SentCount final + Campaign.FailedCount final
       = Campaign.SentCount campaign + Campaign.FailedCount campaign
         + Z.of_nat (length (pending campaignID db)).
Proof.
  intros Hc Hs Ha Hfind Hloop Hsent Hfailed Hmax.
  destruct (loop_counts _ _ _ _ _ _ _ _ Hloop Hsent Hfailed Hmax) as (_ & _ & Hsum).
  assert (Hkept : is_Some (campaigns (store l) !! campaignID)).
  { apply (loop_campaign_kept _ _ _ _ _ _ _ _ _ Hloop). simpl.
    unfold Update. rewrite lookup_alter_eq, Hc. simpl. eauto. }
  destruct Hkept as [last Hlast].
  eexists. eexists. eexists. split.
  { unfold processCampaign. rewrite Hc, Hs, Ha, Hfind. simpl.
    change (pending campaignID (mark_processing campaignID db))
      with (pending campaignID db).
    rewrite Hloop. unfold complete. reflexivity. }
  simpl. unfold Update. rewrite lookup_alter_eq, Hlast. simpl.
  split; [reflexivity |]. split; [reflexivity |]. exact Hsum.
Qed.

(** A campaign resumed with two sent and one failed, and three pending. *)
Lemma completed_run_counts_witness :
  exists db' pub' final,
    processCampaign Sample.quiet
      (Sample.db (Sample.campaign "processing" (Some Sample.tpl) 2 1)) [] 1%N
    = (db', pub', Returned None)
    /\ campaigns db' !! 1%N = Some final
    /\ Campaign.Status final = "completed"
    /\ Campaign.SentCount final + Campaign.FailedCount final = 6.
Proof.
  edestruct (completed_run_counts Sample.quiet
               (Sample.db (Sample.campaign "processing" (Some Sample.tpl) 2 1)) [] 1%N
               (Sample.campaign "processing" (Some Sample.tpl) 2 1) 3%N Sample.account)
    as (db' & pub' & final & Hrun & Hfinal & Hstatus & Hsum).
  - vm_compute. reflexivity.
  - reflexivity.
  - vm_compute. reflexivity.
  - reflexivity.
  - vm_compute. reflexivity.
  - simpl. lia.
  - simpl. lia.
  - vm_compute. discriminate.
  - exists db', pub', final.
    split; [exact Hrun |]. split; [exact Hfinal |]. split; [exact Hstatus |].
    rewrite Hsum. vm_compute. reflexivity.
Defined.

(** C1, as stated, fails for a campaign whose counters are not zero when the
    run starts: with two sends counted by an earlier run and one pending
    recipient, the run completes with a sum of three. *)
Lemma completed_run_counts_counterexample :
  exists l db' pub' final,
    loop Sample.quiet 1%N (Sample.campaign "queued" (Some Sample.tpl) 2 0) Sample.account O
      (pending 1%N (Sample.db_one (Sample.campaign "queued" (Some Sample.tpl) 2 0)))
      (enter (mark_processing 1%N (Sample.db_one (Sample.campaign "queued" (Some Sample.tpl) 2 0)))
         [] (Sample.campaign "queued" (Some Sample.tpl) 2 0))
    = (l, Continue)
    /\ processCampaign Sample.quiet
         (Sample.db_one (Sample.campaign "queued" (Some Sample.tpl) 2 0)) [] 1%N
       = (db', pub', Returned None)
    /\ campaigns db' !! 1%N = Some final
    /\ Campaign.Status final = "completed"
    /\ length (pending 1%N (Sample.db_one (Sample.campaign "queued" (Some Sample.tpl) 2 0))) = 1%nat
    /\ Campaign.SentCount final + Campaign.FailedCount final = 3.
Proof.
  eexists. eexists. eexists. eexists.
  split; [vm_compute; reflexivity |].
  split; [vm_compute; reflexivity |].
  split; [vm_compute; reflexivity |].
  repeat split; vm_compute; reflexivity.
Qed.

(** ** Template substitution *)

Section Substitution.
Import Str StrFacts.
#[local] Arguments String.append : simpl nomatch.

Lemma flatten_cons (t : token) (ts : list token) :
  flatten (t :: ts) = token_string t +:+ flatten ts.
Proof. reflexivity. Qed.

Lemma plain_put (i : nat) (new : string) (ts : list token) :
  brace_free new = true -> forallb plain ts = true ->
  forallb plain (List.map (put i new) ts) = true.
Proof.
  intros Hnew. induction ts as [|t ts IH]; simpl; [reflexivity |].
  intros H. apply andb_true_iff in H as [Ht Hts].
  rewrite (IH Hts), andb_true_r.
  destruct t as [s|k]; simpl; [exact Ht |].
  destruct (Nat.eqb k i); [exact Hnew | reflexivity].
Qed.

(** On a body of brace-free text and placeholders, [ReplaceAll] for {{i}}
    rewrites exactly the placeholders numbered [i]. *)
Lemma ReplaceAll_tokens (i : nat) (new : string) (ts : list token) :
  forallb plain ts = true ->
  ReplaceAll (flatten ts) (placeholder i) new = flatten (List.map (put i new) ts).
Proof.
  induction ts as [|t ts IH]; intros H; [reflexivity |].
  cbn [forallb List.map] in *. apply andb_true_iff in H as [Ht Hts].
  rewrite !flatten_cons.
  destruct t as [s|k]; cbn [plain put token_string] in *.
  - rewrite (text_copied _ _ _ _ Ht). now rewrite IH.
  - destruct (Nat.eqb_spec k i) as [->|ne]; cbn [token_string].
    + rewrite placeholder_hit. now rewrite IH.
    + rewrite (placeholder_miss _ _ _ _ ne). now rewrite IH.
Qed.

Lemma substitute_one_tokens (m : gmap string jvalue) (ts : list token) (i : nat) :
  forallb plain ts = true ->
  substitute_one m (flatten ts) i = flatten (pass m ts i).
Proof.
  intros H. unfold substitute_one, pass, pass_token.
  destruct (m !! Sprintf_d i) as [val|].
  - now apply ReplaceAll_tokens.
  - now rewrite map_id.
Qed.

Lemma plain_pass (m : gmap string jvalue) (ts : list token) (i : nat) :
  (forall val, m !! Sprintf_d i = Some val -> brace_free (Sprintf_v val) = true) ->
  forallb plain ts = true -> forallb plain (pass m ts i) = true.
Proof.
  intros Hval H. unfold pass, pass_token.
  destruct (m !! Sprintf_d i) as [val|].
  - apply plain_put; [now apply Hval | exact H].
  - now rewrite map_id.
Qed.

Lemma passes_tokens (m : gmap string jvalue) (idx : list nat) :
  (forall i val, i ∈ idx -> m !! Sprintf_d i = Some val ->
                 brace_free (Sprintf_v val) = true) ->
  forall ts, forallb plain ts = true ->
    fold_left (substitute_one m) idx (flatten ts) = flatten (fold_left (pass m) idx ts).
Proof.
  induction idx as [|i idx IH]; intros Hval ts H; simpl; [reflexivity |].
  rewrite (substitute_one_tokens _ _ _ H).
  apply IH.
  - intros j val Hj. apply Hval. now right.
  - apply plain_pass; [| exact H]. intros val. apply Hval. left.
Qed.

Lemma passes_pointwise (m : gmap string jvalue) (idx : list nat) :
  forall ts, fold_left (pass m) idx ts
             = List.map (fun t => fold_left (pass_token m) idx t) ts.
Proof.
  induction idx as [|i idx IH]; intros ts; simpl.
  - now rewrite map_id.
  - rewrite IH. unfold pass. now rewrite List.map_map.
Qed.

Lemma passes_text (m : gmap string jvalue) (idx : list nat) (s : string) :
  fold_left (pass_token m) idx (Text s) = Text s.
Proof.
  induction idx as [|i idx IH]; simpl; [reflexivity |].
  unfold pass_token at 2. destruct (m !! Sprintf_d i); exact IH.
Qed.

Lemma passes_hole (m : gmap string jvalue) (idx : list nat) (k : nat) :
  fold_left (pass_token m) idx (Hole k)
  = if decide (k ∈ idx) then
      match m !! Sprintf_d k with
      | Some val => Text (Sprintf_v val)
      | None => Hole k
      end
    else Hole k.
Proof.
  induction idx as [|i idx IH]; simpl.
  - destruct (decide (k ∈ [])) as [Hin|_]; [inversion Hin | reflexivity].
  - unfold pass_token at 2.
    destruct (Nat.eqb_spec k i) as [->|ne].
    + destruct (decide (i ∈ i :: idx)) as [_|Hout]; [| destruct Hout; left].
      destruct (m !! Sprintf_d i) as [val|] eqn:Hm; simpl.
      * rewrite Nat.eqb_refl. apply passes_text.
      * rewrite IH. now destruct (decide (i ∈ idx)).
    + assert (Hstep : match m !! Sprintf_d i with
                      | Some val => put i (Sprintf_v val) (Hole k)
                      | None => Hole k
                      end = Hole k).
      { destruct (m !! Sprintf_d i); simpl; [| reflexivity].
        destruct (Nat.eqb_spec k i); [contradiction | reflexivity]. }
      rewrite Hstep, IH.
      destruct (decide (k ∈ idx)) as [Hin|Hout];
        destruct (decide (k ∈ i :: idx)) as [Hin'|Hout']; try reflexivity.
      * destruct Hout'. now right.
      * apply elem_of_cons in Hin' as [->|Hin']; [contradiction | contradiction].
Qed.

Lemma passes_fill (m : gmap string jvalue) (t : token) :
  fold_left (pass_token m) (seq 1 10) t = fill m t.
Proof.
  destruct t as [s|k]; [apply passes_text |].
  rewrite passes_hole. unfold fill.
  destruct (decide (k ∈ seq 1 10)) as [Hin|Hout].
  - apply elem_of_seq in Hin.
    assert (Hb : ((1 <=? k) && (k <=? 10))%nat = true).
    { apply andb_true_iff. split; apply Nat.leb_le; lia. }
    now rewrite Hb.
  - assert (Hb : ((1 <=? k) && (k <=? 10))%nat = false).
    { destruct ((1 <=? k) && (k <=? 10))%nat eqn:Hb; [| reflexivity].
      apply andb_true_iff in Hb as [H1 H2].
      apply Nat.leb_le in H1, H2. destruct Hout. apply elem_of_seq. lia. }
    now rewrite Hb.
Qed.

(** C4, as the code has it.  On a body made of brace-free text and
    placeholders, with brace-free values under the keys 1 to 10, the content
    is the body with every placeholder from 1 to 10 whose key is present
    replaced by the value, and everything else, the placeholders without a
    parameter and those numbered beyond 10 included, left as it is; without
    a parameter map the body is unchanged; and the order message of the
    specification renders as given there. *)
Theorem substitution_on_plain_bodies (ts : list token) (m : gmap string jvalue) :
  forallb plain ts = true ->
  (forall i val, (1 <= i <= 10)%nat -> m !! Str.Sprintf_d i = Some val ->
                 Str.brace_free (Sprintf_v val) = true) ->
  render (flatten ts) (Some m) = rendered_spec ts m
  /\ render (flatten ts) None = flatten ts
  /\ render "Hi {{1}}, your order {{2}} shipped"
            (params_of [("1", JString "Ana"); ("2", JString "#42")])
     = "Hi Ana, your order #42 shipped".
Proof.
  intros Hplain Hval. split; [| split; [reflexivity | vm_compute; reflexivity]].
  unfold render, rendered_spec.
  rewrite passes_tokens, passes_pointwise.
  - f_equal. apply List.map_ext. intros t. apply passes_fill.
  - intros i val Hin. apply Hval. apply elem_of_seq in Hin. lia.
  - exact Hplain.
Qed.

End Substitution.

(** A body with a matched, an unmatched and an eleventh placeholder. *)
Lemma substitution_on_plain_bodies_witness :
  render "Dear {{1}}, code {{3}} or {{11}}"
         (params_of [("1", JString "Ana"); ("11", JString "eleven")])
  = "Dear Ana, code {{3}} or {{11}}".
Proof.
  pose proof (substitution_on_plain_bodies
                [Text "Dear "; Hole 1; Text ", code "; Hole 3; Text " or "; Hole 11]
                (list_to_map [("1", JString "Ana"); ("11", JString "eleven")])) as H.
  destruct H as [H _].
  - reflexivity.
  - intros i val Hi Hm.
    destruct i as [|[|[|[|[|[|[|[|[|[|[|i]]]]]]]]]]]; try lia;
      vm_compute in Hm; try discriminate Hm; injection Hm as <-; reflexivity.
  - exact H.
Defined.

(** C4, as stated, fails when a value itself holds a placeholder: the passes
    run one after the other, so the text put in for {{1}} is rewritten by the
    pass for {{2}}. *)
Lemma substitution_counterexample :
  flatten [Hole 1] = "{{1}}"
  /\ render "{{1}}" (params_of [("1", JString "{{2}}"); ("2", JString "x")]) = "x"
  /\ rendered_spec [Hole 1] (list_to_map [("1", JString "{{2}}"); ("2", JString "x")])
     = "{{2}}".
Proof. repeat split; vm_compute; reflexivity. Qed.

(** ** The specification's three-recipient scenario *)

(** The gateway accepts two sends and rejects one: the campaign is completed
    with two sent and one failed, and the rejected recipient carries the
    gateway's error. *)
Lemma scenario_partial_failure :
  exists db' pub' final row,
    processCampaign Sample.quiet
      (Sample.db (Sample.campaign "queued" (Some Sample.tpl) 0 0)) [] 1%N
    = (db', pub', Returned None)
    /\ campaigns db' !! 1%N = Some final
    /\ Campaign.Status final = "completed"
    /\ Campaign.SentCount final = 2
    /\ Campaign.FailedCount final = 1
    /\ Campaign.CompletedAt final = Some 2000
    /\ recipients db' !! 12%N = Some row
    /\ Recipient.Status row = "failed"
    /\ Recipient.ErrorMessage row = "template rejected"
    /\ length (messages db') = 3%nat
    /\ length pub' = 4%nat.
Proof.
  eexists. eexists. eexists. eexists.
  split; [vm_compute; reflexivity |].
  split; [vm_compute; reflexivity |].
  do 4 (split; [reflexivity |]).
  split; [vm_compute; reflexivity |].
  repeat split; reflexivity.
Qed.

(** ** What a run leaves alone *)

Section Within.
Context (campaignID : uuid) (campaign : Campaign.t).

Lemma within_intro (n p : nat) (db db' : Store) (pub : list Stats.t)
    (ms : list Message.t) (news : list Stats.t) :
  accounts db' = accounts db ->
  (forall other, other <> campaignID -> campaigns db' !! other = campaigns db !! other) ->
  contacts db ⊆ contacts db' ->
  (size (contacts db') <= size (contacts db) + n)%nat ->
  messages db' = messages db ++ ms -> (length ms <= n)%nat ->
  (length news <= p)%nat -> Forall (snapshot_of campaignID campaign) news ->
  within campaignID campaign n p db pub db' (pub ++ news).
Proof.
  intros Ha Hc Hsub Hsize Hms Hlen Hlen' Hall.
  unfold within. split_and!; try assumption.
  - exists ms. auto.
  - exists news. auto.
Qed.

Lemma within_refl (db : Store) (pub : list Stats.t) :
  within campaignID campaign 0 0 db pub db pub.
Proof.
  rewrite <- (app_nil_r pub) at 2.
  apply (within_intro 0 0 db db pub [] []); auto.
  - lia.
  - now rewrite app_nil_r.
Qed.

Lemma within_weaken (n p n' p' : nat) (db db' : Store) (pub pub' : list Stats.t) :
  (n <= n')%nat -> (p <= p')%nat ->
  within campaignID campaign n p db pub db' pub' ->
  within campaignID campaign n' p' db pub db' pub'.
Proof.
  intros Hn Hp (Ha & Hc & Hsub & Hsize & (ms & Hms & Hlen) & (news & -> & Hlen' & Hall)).
  apply (within_intro n' p' db db' pub ms news); auto; lia.
Qed.

Lemma within_trans (n p n' p' : nat) (db db1 db2 : Store) (pub pub1 pub2 : list Stats.t) :
  within campaignID campaign n p db pub db1 pub1 ->
  within campaignID campaign n' p' db1 pub1 db2 pub2 ->
  within campaignID campaign (n + n') (p + p') db pub db2 pub2.
Proof.
  intros (Ha & Hc & Hsub & Hsize & (ms & Hms & Hlen) & (news & -> & Hlen' & Hall))
         (Ha' & Hc' & Hsub' & Hsize' & (ms' & Hms' & Hlen2) & (news' & -> & Hlen2' & Hall')).
  rewrite <- app_assoc.
  apply (within_intro (n + n') (p + p') db db2 pub (ms ++ ms') (news ++ news')).
  - congruence.
  - intros other ne. rewrite (Hc' other ne). now apply Hc.
  - etrans; eassumption.
  - lia.
  - now rewrite Hms', Hms, <- app_assoc.
  - rewrite length_app. lia.
  - rewrite length_app. lia.
  - now apply Forall_app.
Qed.

(** A write to the campaign's own row. *)
Lemma within_own_campaign (f : Campaign.t -> Campaign.t) (db : Store) (pub : list Stats.t) :
  within campaignID campaign 0 0 db pub (with_campaigns (Update campaignID f) db) pub.
Proof.
  rewrite <- (app_nil_r pub) at 2.
  apply (within_intro 0 0 db _ pub [] []); simpl; auto.
  - intros other ne. unfold Update. now rewrite lookup_alter_ne.
  - lia.
  - now rewrite app_nil_r.
Qed.

Lemma within_recipients (f : gmap uuid Recipient.t -> gmap uuid Recipient.t)
    (db : Store) (pub : list Stats.t) :
  within campaignID campaign 0 0 db pub (with_recipients f db) pub.
Proof.
  rewrite <- (app_nil_r pub) at 2.
  apply (within_intro 0 0 db _ pub [] []); simpl; auto.
  - lia.
  - now rewrite app_nil_r.
Qed.

Lemma progress_snapshot (status : string) (sent failed : Z) :
  status = "processing" \/ status = "completed" ->
  snapshot_of campaignID campaign (progress campaignID campaign status sent failed).
Proof. intros H. unfold snapshot_of. simpl. auto. Qed.

Lemma getOrCreateContact_grows (insert : string + uuid) (db db1 : Store)
    (orgID : uuid) (phoneNumber name : string) (res : string + (uuid * Contact.t)) :
  getOrCreateContact insert db orgID phoneNumber name = (db1, res) ->
  contacts db ⊆ contacts db1
  /\ (size (contacts db1) <= size (contacts db) + 1)%nat.
Proof.
  intros H.
  apply getOrCreateContact_cases in H as
    [[-> _]|[[-> _]|[[-> _]|(_ & _ & id & _ & Hfresh & _ & ->)]]];
    try (split; [reflexivity | lia]).
  simpl. split; [now apply insert_subseteq |].
  rewrite map_size_insert_None by exact Hfresh. lia.
Qed.

Lemma management_within (E : Env) (i : nat) (db : Store) (pub : list Stats.t) :
  within campaignID campaign 0 0 db pub (management E campaignID i db) pub.
Proof.
  unfold management. destruct (management_status E i);
    [apply within_own_campaign | apply within_refl].
Qed.

Lemma deliver_within (E : Env) (account : Account.t) (i : nat) (rid : uuid)
    (recipient : Recipient.t) (l l' : Run) (f : flow) :
  deliver E campaignID campaign account i rid recipient l = (l', f) ->
  within campaignID campaign 1 1 (store l) (published l) (store l') (published l').
Proof.
  intros H. unfold deliver in H.
  destruct (getOrCreateContact _ _ _ _ _) as [db [err|[contactID contact]]] eqn:Hres.
  - injection H as <- <-. simpl.
    pose proof (getOrCreateContact_error _ _ _ _ _ _ _ Hres) as ->.
    apply (within_weaken 0 0 1 1); [lia | lia |]. apply within_recipients.
  - destruct (getOrCreateContact_frame _ _ _ _ _ _ _ Hres) as (Hc & Hr & Hm & Ha).
    destruct (getOrCreateContact_grows _ _ _ _ _ _ _ Hres) as (Hsub & Hsize).
    destruct (sendTemplateMessage _ _ _ _) as [reason|reply].
    + injection H as <- <-. simpl.
      rewrite <- (app_nil_r (published l)) at 2.
      apply (within_intro 1 1 _ _ _ [] []); simpl; auto.
      * intros other _. now rewrite Hc.
      * now rewrite app_nil_r.
    + injection H as <- <-. simpl.
      eapply (within_intro 1 1 _ _ _ [_] [_]); simpl; auto.
      * intros other ne. unfold Update. now rewrite lookup_alter_ne, Hc.
      * now rewrite Hm.
      * constructor; [| constructor]. apply progress_snapshot. now left.
Qed.

Lemma iteration_within (E : Env) (account : Account.t) (i : nat)
    (r : uuid * Recipient.t) (l l' : Run) (f : flow) :
  iteration E campaignID campaign account i r l = (l', f) ->
  within campaignID campaign 1 1 (store l) (published l) (store l') (published l').
Proof.
  intros H. apply iteration_cases in H as
    [(err & _ & -> & _)|[(_ & _ & -> & _)|(_ & _ & H)]].
  - apply (within_weaken 0 0 1 1); [lia | lia | apply within_refl].
  - apply (within_weaken 0 0 1 1); [lia | lia |]. simpl. apply management_within.
  - apply deliver_within in H. simpl in H.
    apply (within_trans 0 0 1 1 _ _ _ _ _ _
             (management_within E i (store l) (published l)) H).
Qed.

Lemma loop_within (E : Env) (account : Account.t) (rs : list (uuid * Recipient.t)) :
  forall (i : nat) (l l' : Run) (f : flow),
    loop E campaignID campaign account i rs l = (l', f) ->
    within campaignID campaign (length rs) (length rs)
      (store l) (published l) (store l') (published l').
Proof.
  induction rs as [|r rs IH]; intros i l l' f H; simpl in H.
  - injection H as <- _. apply within_refl.
  - destruct (iteration E campaignID campaign account i r l) as [l1 [|o]] eqn:Hit.
    + apply (within_trans 1 1 (length rs) (length rs) _ _ _ _ _ _
               (iteration_within _ _ _ _ _ _ _ Hit)).
      now apply (IH _ _ _ _ H).
    + injection H as <- _. apply (within_weaken 1 1); [simpl; lia | simpl; lia |].
      apply (iteration_within _ _ _ _ _ _ _ Hit).
Qed.

End Within.

(** The whole run, whatever its outcome. *)
Lemma processCampaign_within (E : Env) (db : Store) (pub : list Stats.t)
    (campaignID : uuid) (campaign : Campaign.t) :
  campaigns db !! campaignID = Some campaign ->
  within campaignID campaign
    (length (pending campaignID db)) (S (length (pending campaignID db)))
    db pub (processCampaign E db pub campaignID).1.1 (processCampaign E db pub campaignID).1.2.
Proof.
  intros Hc. unfold processCampaign. rewrite Hc.
  destruct (startable (Campaign.Status campaign)); simpl;
    [| apply (within_weaken campaignID campaign 0 0); [lia | lia | apply within_refl]].
  destruct (First _ (accounts db)) as [[accountID account]|]; simpl;
    [| apply (within_weaken campaignID campaign 0 0); [lia | lia | apply within_own_campaign]].
  destruct (find_recipients_err E) as [err|]; simpl.
  { apply (within_weaken campaignID campaign 0 0); [lia | lia |].
    apply (within_trans campaignID campaign 0 0 0 0 _ (mark_processing campaignID db) _ pub pub pub);
      apply within_own_campaign. }
  change (pending campaignID (mark_processing campaignID db))
    with (pending campaignID db).
  destruct (loop E campaignID campaign account 0 (pending campaignID db)
              (enter (mark_processing campaignID db) pub campaign)) as [l [|o]] eqn:Hloop;
    apply loop_within in Hloop; simpl in Hloop.
  - simpl.
    pose proof (within_trans campaignID campaign _ _ _ _ _ _ _ _ _ _
                  (within_own_campaign campaignID campaign
                     (Campaign.set_Status "processing") db pub) Hloop) as H1.
    pose proof (within_own_campaign campaignID campaign
                  (Campaign.set_completed (completed_now E) (sentCount l) (failedCount l))
                  (store l) (published l)) as H2.
    pose proof (within_trans campaignID campaign _ _ _ _ _ _ _ _ _ _ H1 H2) as H3.
    assert (H4 : within campaignID campaign 0 1
                   (with_campaigns
                      (Update campaignID
                         (Campaign.set_completed (completed_now E) (sentCount l) (failedCount l)))
                      (store l)) (published l)
                   (with_campaigns
                      (Update campaignID
                         (Campaign.set_completed (completed_now E) (sentCount l) (failedCount l)))
                      (store l))
                   (published l ++ [progress campaignID campaign "completed"
                                      (sentCount l) (failedCount l)])).
    { apply (within_intro campaignID campaign 0 1 _ _ _ [] [_]); simpl; auto;
        try (now rewrite app_nil_r); try lia.
      constructor; [| constructor]. apply progress_snapshot. now right. }
    pose proof (within_trans campaignID campaign _ _ _ _ _ _ _ _ _ _ H3 H4) as H5.
    eapply within_weaken; [| | exact H5]; simpl; lia.
  - simpl.
    pose proof (within_trans campaignID campaign _ _ _ _ _ _ _ _ _ _
                  (within_own_campaign campaignID campaign
                     (Campaign.set_Status "processing") db pub) Hloop) as H1.
    eapply within_weaken; [| | exact H1]; simpl; lia.
Qed.

(** ** Which recipients stay pending *)

Lemma pending_elem (campaignID : uuid) (db : Store) (k : uuid) (x : Recipient.t) :
  (k, x) ∈ pending campaignID db <->
  recipients db !! k = Some x /\ is_pending campaignID x = true.
Proof.
  unfold pending, Find. rewrite list_elem_of_In, filter_In, <- list_elem_of_In.
  now rewrite elem_of_map_to_list.
Qed.

Lemma deliver_marks (E : Env) (campaignID : uuid) (campaign : Campaign.t)
    (account : Account.t) (i : nat) (rid : uuid) (recipient row : Recipient.t)
    (l l' : Run) :
  deliver E campaignID campaign account i rid recipient l = (l', Continue) ->
  recipients (store l) !! rid = Some row ->
  exists row', recipients (store l') !! rid = Some row'
               /\ (Recipient.Status row' = "sent" \/ Recipient.Status row' = "failed").
Proof.
  intros H Hrow. unfold deliver in H.
  destruct (getOrCreateContact _ _ _ _ _) as [db [err|[contactID contact]]] eqn:Hres;
    destruct (getOrCreateContact_frame _ _ _ _ _ _ _ Hres) as (_ & Hr & _ & _).
  - injection H as <-. simpl. unfold Update. rewrite lookup_alter_eq, Hr, Hrow.
    simpl. eauto.
  - destruct (sendTemplateMessage _ _ _ _) as [reason|[id [e|]]]; [discriminate | |];
      injection H as <-; simpl; unfold Update; rewrite lookup_alter_eq, Hr, Hrow;
      simpl; eauto.
Qed.

Lemma iteration_marks (E : Env) (campaignID : uuid) (campaign : Campaign.t)
    (account : Account.t) (i : nat) (r : uuid * Recipient.t) (row : Recipient.t)
    (l l' : Run) :
  iteration E campaignID campaign account i r l = (l', Continue) ->
  recipients (store l) !! r.1 = Some row ->
  exists row', recipients (store l') !! r.1 = Some row'
               /\ (Recipient.Status row' = "sent" \/ Recipient.Status row' = "failed").
Proof.
  intros H Hrow. apply iteration_cases in H as
    [(err & _ & _ & [=])|[(_ & _ & _ & [=])|(_ & _ & H)]].
  apply (deliver_marks _ _ _ _ _ _ _ row _ _ H). simpl.
  now rewrite (proj1 (management_frame E campaignID i (store l))).
Qed.

(** A loop that falls through leaves each of its recipients sent or failed. *)
Lemma loop_marks (E : Env) (campaignID : uuid) (campaign : Campaign.t)
    (account : Account.t) (rs : list (uuid * Recipient.t)) (k : uuid) :
  forall (i : nat) (l l' : Run),
    loop E campaignID campaign account i rs l = (l', Continue) ->
    NoDup rs.*1 -> k ∈ rs.*1 ->
    is_Some (recipients (store l) !! k) ->
    exists row', recipients (store l') !! k = Some row'
                 /\ (Recipient.Status row' = "sent" \/ Recipient.Status row' = "failed").
Proof.
  induction rs as [|r rs IH]; intros i l l' H Hnd Hin Hsome; simpl in *.
  - inversion Hin.
  - apply NoDup_cons in Hnd as [Hfresh Hnd].
    destruct (iteration E campaignID campaign account i r l) as [l1 [|o]] eqn:Hit;
      [| discriminate].
    destruct (decide (k = r.1)) as [->|ne].
    + destruct Hsome as [row Hrow].
      destruct (iteration_marks _ _ _ _ _ _ _ _ _ Hit Hrow) as (row' & Hrow' & Hst).
      exists row'. split; [| exact Hst].
      now rewrite (loop_recipients_other _ _ _ _ _ _ _ _ _ _ H Hfresh).
    + apply elem_of_cons in Hin as [Heq|Hin]; [contradiction |].
      apply (IH _ _ _ H Hnd Hin).
      now rewrite (iteration_recipients_other _ _ _ _ _ _ _ _ _ _ Hit ne).
Qed.

(** After a prefix of the loaded recipients has been run through, the
    recipients still pending are exactly the rest. *)
Lemma loop_pending (E : Env) (campaignID : uuid) (campaign : Campaign.t)
    (account : Account.t) (db : Store) (pre post : list (uuid * Recipient.t))
    (l0 l : Run) (k : uuid) (x : Recipient.t) :
  pending campaignID db = pre ++ post ->
  recipients (store l0) = recipients db ->
  loop E campaignID campaign account O pre l0 = (l, Continue) ->
  (k, x) ∈ pending campaignID (store l) <-> (k, x) ∈ post.
Proof.
  intros Hsplit Hsame Hloop.
  pose proof (pending_NoDup campaignID db) as Hnd.
  rewrite Hsplit, fmap_app in Hnd. apply NoDup_app in Hnd as (Hnd & Hdisj & _).
  rewrite pending_elem. split.
  - intros [Hk Hp].
    destruct (decide (k ∈ pre.*1)) as [Hin|Hout].
    + assert (Hsome : is_Some (recipients (store l0) !! k)).
      { apply list_elem_of_fmap in Hin as ([k' y] & -> & Hy). simpl.
        rewrite Hsame. exists y. apply (pending_elem campaignID).
        rewrite Hsplit. apply elem_of_app. now left. }
      destruct (loop_marks _ _ _ _ _ k _ _ _ Hloop Hnd Hin Hsome) as (row' & Hrow' & Hst).
      rewrite Hk in Hrow'. injection Hrow' as <-.
      unfold is_pending in Hp. apply andb_true_iff in Hp as [_ Hp].
      apply String.eqb_eq in Hp. rewrite Hp in Hst. destruct Hst; discriminate.
    + rewrite (loop_recipients_other _ _ _ _ _ k _ _ _ _ Hloop Hout), Hsame in Hk.
      assert (Hin : (k, x) ∈ pre ++ post)
        by (rewrite <- Hsplit; apply pending_elem; auto).
      apply elem_of_app in Hin as [Hin|Hin]; [| exact Hin].
      destruct Hout. apply list_elem_of_fmap. exists (k, x). auto.
  - intros Hin.
    assert (Hout : k ∉ pre.*1).
    { intros Hk. apply (Hdisj k Hk). apply list_elem_of_fmap. exists (k, x). auto. }
    rewrite (loop_recipients_other _ _ _ _ _ k _ _ _ _ Hloop Hout), Hsame.
    apply pending_elem. rewrite Hsplit. apply elem_of_app. now right.
Qed.

(** ** Runs as a whole *)

(** Behind the three loads the run is the loop followed by the completion. *)
Lemma processCampaign_loop (E : Env) (db : Store) (pub : list Stats.t)
    (campaignID : uuid) (campaign : Campaign.t) (accountID : uuid) (account : Account.t) :
  campaigns db !! campaignID = Some campaign ->
  startable (Campaign.Status campaign) = true ->
  First (same_account (Campaign.WhatsAppAccount campaign)
           (Campaign.OrganizationID campaign)) (accounts db) = Some (accountID, account) ->
  find_recipients_err E = None ->
  processCampaign E db pub campaignID
  = match loop E campaignID campaign account O (pending campaignID db)
            (enter (mark_processing campaignID db) pub campaign) with
    | (l, Break o) => (store l, published l, o)
    | (l, Continue) => (complete E campaignID campaign l, Returned None)
    end.
Proof.
  intros Hc Hs Ha Hfind. unfold processCampaign. rewrite Hc, Hs, Ha, Hfind. reflexivity.
Qed.

Lemma processCampaign_skips (E : Env) (db : Store) (pub : list Stats.t)
    (campaignID : uuid) (campaign : Campaign.t) :
  campaigns db !! campaignID = Some campaign ->
  startable (Campaign.Status campaign) = false ->
  processCampaign E db pub campaignID = (db, pub, Returned None).
Proof. intros Hc Hs. unfold processCampaign. now rewrite Hc, Hs. Qed.

(** X1.  When the context is cancelled before a recipient, the run returns
    the context's error with the store and the snapshots exactly as the
    recipients before it left them; the recipients still pending are that
    recipient and the ones behind it. *)
Theorem cancellation_stops_run
    (E : Env) (db : Store) (pub : list Stats.t) (campaignID : uuid)
    (campaign : Campaign.t) (accountID : uuid) (account : Account.t)
    (pre post : list (uuid * Recipient.t)) (r : uuid * Recipient.t) (l : Run)
    (err : string) :
  campaigns db !! campaignID = Some campaign ->
  startable (Campaign.Status campaign) = true ->
  First (same_account (Campaign.WhatsAppAccount campaign)
           (Campaign.OrganizationID campaign)) (accounts db) = Some (accountID, account) ->
  find_recipients_err E = None ->
  pending campaignID db = pre ++ r :: post ->
  loop E campaignID campaign account O pre
    (enter (mark_processing campaignID db) pub campaign) = (l, Continue) ->
  ctx_Err E (length pre) = Some err ->
  processCampaign E db pub campaignID = (store l, published l, Returned (Some err))
  /\ (forall k x, (k, x) ∈ pending campaignID (store l) <-> (k, x) ∈ r :: post).
Proof.
  intros Hc Hs Ha Hfind Hsplit Hpre Hctx. split.
  - rewrite (processCampaign_loop _ _ _ _ _ _ _ Hc Hs Ha Hfind).
    rewrite Hsplit, (loop_app _ _ _ _ _ _ _ _ _ Hpre). simpl.
    unfold iteration. now rewrite Hctx.
  - intros k x. now apply (loop_pending E campaignID campaign account db pre (r :: post)
                             (enter (mark_processing campaignID db) pub campaign) l).
Qed.

Lemma cancellation_stops_run_witness :
  exists db' pub',
    processCampaign (Sample.cancelled_from 1)
      (Sample.db (Sample.campaign "queued" (Some Sample.tpl) 0 0)) [] 1%N
    = (db', pub', Returned (Some "context canceled"))
    /\ (forall k x, (k, x) ∈ pending 1%N db' <->
                    (k, x) ∈ [(12%N, Sample.recipient "+333" "Cy");
                              (11%N, Sample.recipient "222" "Bo")]).
Proof.
  edestruct (cancellation_stops_run (Sample.cancelled_from 1)
               (Sample.db (Sample.campaign "queued" (Some Sample.tpl) 0 0)) [] 1%N
               (Sample.campaign "queued" (Some Sample.tpl) 0 0) 3%N Sample.account
               [(10%N, Sample.recipient "+111" "Ana")]
               [(11%N, Sample.recipient "222" "Bo")]
               (12%N, Sample.recipient "+333" "Cy")) as (Hrun & Hrest).
  - vm_compute. reflexivity.
  - reflexivity.
  - vm_compute. reflexivity.
  - reflexivity.
  - vm_compute. reflexivity.
  - vm_compute. reflexivity.
  - reflexivity.
  - eexists. eexists. split; [exact Hrun | exact Hrest].
Defined.

(** X2.  When the recipient query fails, the run writes the status failed on
    the campaign and returns the wrapped error; recipients, contacts,
    messages, accounts and the published snapshots are as before. *)
Theorem recipient_query_failure
    (E : Env) (db : Store) (pub : list Stats.t) (campaignID : uuid)
    (campaign : Campaign.t) (accountID : uuid) (account : Account.t) (err : string) :
  campaigns db !! campaignID = Some campaign ->
  startable (Campaign.Status campaign) = true ->
  First (same_account (Campaign.WhatsAppAccount campaign)
           (Campaign.OrganizationID campaign)) (accounts db) = Some (accountID, account) ->
  find_recipients_err E = Some err ->
  exists db',
    processCampaign E db pub campaignID
    = (db', pub, Returned (Some ("failed to load recipients: " +:+ err)))
    /\ campaigns db' !! campaignID = Some (Campaign.set_Status "failed" campaign)
    /\ recipients db' = recipients db
    /\ contacts db' = contacts db
    /\ messages db' = messages db
    /\ accounts db' = accounts db.
Proof.
  intros Hc Hs Ha Hfind. eexists. split.
  { unfold processCampaign. rewrite Hc, Hs, Ha, Hfind. reflexivity. }
  simpl. unfold Update. rewrite !lookup_alter_eq, Hc. simpl. auto 10.
Qed.

Lemma recipient_query_failure_witness :
  exists db',
    processCampaign Sample.query_fails
      (Sample.db (Sample.campaign "queued" (Some Sample.tpl) 0 0)) [] 1%N
    = (db', [], Returned (Some "failed to load recipients: connection reset"))
    /\ campaigns db' !! 1%N = Some (Sample.campaign "failed" (Some Sample.tpl) 0 0)
    /\ recipients db' = recipients (Sample.db (Sample.campaign "queued" (Some Sample.tpl) 0 0)).
Proof.
  destruct (recipient_query_failure Sample.query_fails
              (Sample.db (Sample.campaign "queued" (Some Sample.tpl) 0 0)) [] 1%N
              (Sample.campaign "queued" (Some Sample.tpl) 0 0) 3%N Sample.account
              "connection reset") as (db' & Hrun & Hc & Hr & _).
  - vm_compute. reflexivity.
  - reflexivity.
  - vm_compute. reflexivity.
  - reflexivity.
  - exists db'. split; [exact Hrun |]. split; [exact Hc | exact Hr].
Defined.

(** X3.  A startable campaign without a pending recipient is completed at
    once: its row gets the status completed, the completion time and the
    counters it already had, one snapshot with the status completed is
    published, and nothing else changes. *)
Theorem no_pending_recipient_completes
    (E : Env) (db : Store) (pub : list Stats.t) (campaignID : uuid)
    (campaign : Campaign.t) (accountID : uuid) (account : Account.t) :
  campaigns db !! campaignID = Some campaign ->
  startable (Campaign.Status campaign) = true ->
  First (same_account (Campaign.WhatsAppAccount campaign)
           (Campaign.OrganizationID campaign)) (accounts db) = Some (accountID, account) ->
  find_recipients_err E = None ->
  pending campaignID db = [] ->
  exists db',
    processCampaign E db pub campaignID
    = (db',
       pub ++ [progress campaignID campaign "completed"
                 (Campaign.SentCount campaign) (Campaign.FailedCount campaign)],
       Returned None)
    /\ campaigns db' !! campaignID
       = Some (Campaign.set_completed (completed_now E)
                 (Campaign.SentCount campaign) (Campaign.FailedCount campaign) campaign)
    /\ recipients db' = recipients db
    /\ contacts db' = contacts db
    /\ messages db' = messages db
    /\ accounts db' = accounts db.
Proof.
  intros Hc Hs Ha Hfind Hnone. eexists. split.
  { rewrite (processCampaign_loop _ _ _ _ _ _ _ Hc Hs Ha Hfind), Hnone. reflexivity. }
  simpl. unfold Update. rewrite !lookup_alter_eq, Hc. simpl. auto 10.
Qed.

Lemma no_pending_recipient_completes_witness :
  exists db',
    processCampaign Sample.quiet
      (Sample.db_idle (Sample.campaign "processing" (Some Sample.tpl) 4 1)) [] 1%N
    = (db', [progress 1%N (Sample.campaign "processing" (Some Sample.tpl) 4 1) "completed" 4 1],
       Returned None)
    /\ campaigns db' !! 1%N
       = Some (Campaign.set_completed 2000 4 1
                 (Sample.campaign "processing" (Some Sample.tpl) 4 1)).
Proof.
  destruct (no_pending_recipient_completes Sample.quiet
              (Sample.db_idle (Sample.campaign "processing" (Some Sample.tpl) 4 1)) [] 1%N
              (Sample.campaign "processing" (Some Sample.tpl) 4 1) 3%N Sample.account)
    as (db' & Hrun & Hc & _).
  - vm_compute. reflexivity.
  - reflexivity.
  - vm_compute. reflexivity.
  - reflexivity.
  - vm_compute. reflexivity.
  - exists db'. split; [exact Hrun | exact Hc].
Defined.

(** X4.  After a run whose loop fell through, every recipient that was
    loaded is sent or failed and no recipient of the campaign is pending. *)
Theorem completed_run_leaves_none_pending
    (E : Env) (db : Store) (pub : list Stats.t) (campaignID : uuid)
    (campaign : Campaign.t) (accountID : uuid) (account : Account.t) (l : Run) :
  campaigns db !! campaignID = Some campaign ->
  startable (Campaign.Status campaign) = true ->
  First (same_account (Campaign.WhatsAppAccount campaign)
           (Campaign.OrganizationID campaign)) (accounts db) = Some (accountID, account) ->
  find_recipients_err E = None ->
  loop E campaignID campaign account O (pending campaignID db)
    (enter (mark_processing campaignID db) pub campaign) = (l, Continue) ->
  exists db' pub',
    processCampaign E db pub campaignID = (db', pub', Returned None)
    /\ pending campaignID db' = []
    /\ (forall k x, (k, x) ∈ pending campaignID db ->
          exists row', recipients db' !! k = Some row'
                       /\ (Recipient.Status row' = "sent"
                           \/ Recipient.Status row' = "failed")).
Proof.
  intros Hc Hs Ha Hfind Hloop. eexists. eexists. split.
  { rewrite (processCampaign_loop _ _ _ _ _ _ _ Hc Hs Ha Hfind), Hloop.
    unfold complete. reflexivity. }
  split.
  - change (pending campaignID (store l) = []).
    destruct (pending campaignID (store l)) as [|[k x] rest] eqn:Hp; [reflexivity |].
    assert (Hin : (k, x) ∈ pending campaignID (store l)) by (rewrite Hp; left).
    apply (loop_pending E campaignID campaign account db (pending campaignID db) []
             (enter (mark_processing campaignID db) pub campaign) l) in Hin;
      [inversion Hin | now rewrite app_nil_r | reflexivity | exact Hloop].
  - intros k x Hin. simpl.
    apply (loop_marks _ _ _ _ _ k _ _ _ Hloop (pending_NoDup campaignID db)).
    + apply list_elem_of_fmap. exists (k, x). auto.
    + simpl. exists x. now apply (pending_elem campaignID db).
Qed.

Lemma completed_run_leaves_none_pending_witness :
  exists db' pub',
    processCampaign Sample.quiet
      (Sample.db (Sample.campaign "queued" (Some Sample.tpl) 0 0)) [] 1%N
    = (db', pub', Returned None)
    /\ pending 1%N db' = [].
Proof.
  edestruct (completed_run_leaves_none_pending Sample.quiet
               (Sample.db (Sample.campaign "queued" (Some Sample.tpl) 0 0)) [] 1%N
               (Sample.campaign "queued" (Some Sample.tpl) 0 0) 3%N Sample.account)
    as (db' & pub' & Hrun & Hnone & _).
  - vm_compute. reflexivity.
  - reflexivity.
  - vm_compute. reflexivity.
  - reflexivity.
  - vm_compute. reflexivity.
  - exists db', pub'. split; [exact Hrun | exact Hnone].
Defined.

(** X5.  A job delivered again after its campaign was completed changes
    nothing: handling it returns success and leaves the store and the
    published snapshots as they are. *)
Theorem redelivery_after_completion
    (E E' : Env) (db : Store) (pub pub2 : list Stats.t) (campaignID : uuid)
    (campaign : Campaign.t) (accountID : uuid) (account : Account.t) (l : Run) :
  campaigns db !! campaignID = Some campaign ->
  startable (Campaign.Status campaign) = true ->
  First (same_account (Campaign.WhatsAppAccount campaign)
           (Campaign.OrganizationID campaign)) (accounts db) = Some (accountID, account) ->
  find_recipients_err E = None ->
  loop E campaignID campaign account O (pending campaignID db)
    (enter (mark_processing campaignID db) pub campaign) = (l, Continue) ->
  exists db' pub',
    handleCampaignJob E db pub {| job_CampaignID := campaignID |}
    = (db', pub', Returned None)
    /\ handleCampaignJob E' db' pub2 {| job_CampaignID := campaignID |}
       = (db', pub2, Returned None).
Proof.
  intros Hc Hs Ha Hfind Hloop.
  assert (Hkept : is_Some (campaigns (store l) !! campaignID)).
  { apply (loop_campaign_kept _ _ _ _ _ _ _ _ _ Hloop). simpl.
    unfold Update. rewrite lookup_alter_eq, Hc. simpl. eauto. }
  destruct Hkept as [last Hlast].
  eexists. eexists. unfold handleCampaignJob. simpl. split.
  { rewrite (processCampaign_loop _ _ _ _ _ _ _ Hc Hs Ha Hfind), Hloop.
    unfold complete. reflexivity. }
  eapply processCampaign_skips.
  - simpl. unfold Update. rewrite lookup_alter_eq, Hlast. reflexivity.
  - reflexivity.
Qed.

Lemma redelivery_after_completion_witness :
  exists db' pub',
    handleCampaignJob Sample.quiet
      (Sample.db (Sample.campaign "queued" (Some Sample.tpl) 0 0)) []
      {| job_CampaignID := 1%N |}
    = (db', pub', Returned None)
    /\ handleCampaignJob Sample.cancelling db' [] {| job_CampaignID := 1%N |}
       = (db', [], Returned None).
Proof.
  edestruct (redelivery_after_completion Sample.quiet Sample.cancelling
               (Sample.db (Sample.campaign "queued" (Some Sample.tpl) 0 0)) [] [] 1%N
               (Sample.campaign "queued" (Some Sample.tpl) 0 0) 3%N Sample.account)
    as (db' & pub' & Hrun & Hagain).
  - vm_compute. reflexivity.
  - reflexivity.
  - vm_compute. reflexivity.
  - reflexivity.
  - vm_compute. reflexivity.
  - exists db', pub'. split; [exact Hrun | exact Hagain].
Defined.

(** X6.  After a run that stopped on a paused or cancelled status, the
    recipients still pending are exactly the one it stopped at and the ones
    behind it: putting the campaign back in the queue resumes with these and
    no others. *)
Theorem stopped_run_keeps_rest_pending
    (E : Env) (db : Store) (pub : list Stats.t) (campaignID : uuid)
    (campaign : Campaign.t) (accountID : uuid) (account : Account.t)
    (pre post : list (uuid * Recipient.t)) (r : uuid * Recipient.t) (l : Run) :
  campaigns db !! campaignID = Some campaign ->
  startable (Campaign.Status campaign) = true ->
  First (same_account (Campaign.WhatsAppAccount campaign)
           (Campaign.OrganizationID campaign)) (accounts db) = Some (accountID, account) ->
  find_recipients_err E = None ->
  pending campaignID db = pre ++ r :: post ->
  loop E campaignID campaign account O pre
    (enter (mark_processing campaignID db) pub campaign) = (l, Continue) ->
  ctx_Err E (length pre) = None ->
  stopped (polled_status E campaignID (length pre)
             (management E campaignID (length pre) (store l))) = true ->
  exists db' pub',
    processCampaign E db pub campaignID = (db', pub', Returned None)
    /\ (forall k x, (k, x) ∈ pending campaignID db' <-> (k, x) ∈ r :: post).
Proof.
  intros Hc Hs Ha Hfind Hsplit Hpre Hctx Hstop. eexists. eexists. split.
  { rewrite (processCampaign_loop _ _ _ _ _ _ _ Hc Hs Ha Hfind).
    rewrite Hsplit, (loop_app _ _ _ _ _ _ _ _ _ Hpre). simpl.
    unfold iteration. rewrite Hctx. simpl. rewrite Hstop. reflexivity. }
  intros k x. simpl.
  assert (Hsame : pending campaignID (management E campaignID (length pre) (store l))
                  = pending campaignID (store l)).
  { unfold pending. now rewrite (proj1 (management_frame E campaignID (length pre) (store l))). }
  rewrite Hsame.
  now apply (loop_pending E campaignID campaign account db pre (r :: post)
               (enter (mark_processing campaignID db) pub campaign) l).
Qed.

Lemma stopped_run_keeps_rest_pending_witness :
  exists db' pub',
    processCampaign Sample.cancelling
      (Sample.db (Sample.campaign "queued" (Some Sample.tpl) 0 0)) [] 1%N
    = (db', pub', Returned None)
    /\ (forall k x, (k, x) ∈ pending 1%N db' <->
                    (k, x) ∈ [(12%N, Sample.recipient "+333" "Cy");
                              (11%N, Sample.recipient "222" "Bo")]).
Proof.
  edestruct (stopped_run_keeps_rest_pending Sample.cancelling
               (Sample.db (Sample.campaign "queued" (Some Sample.tpl) 0 0)) [] 1%N
               (Sample.campaign "queued" (Some Sample.tpl) 0 0) 3%N Sample.account
               [(10%N, Sample.recipient "+111" "Ana")]
               [(11%N, Sample.recipient "222" "Bo")]
               (12%N, Sample.recipient "+333" "Cy")) as (db' & pub' & Hrun & Hrest).
  - vm_compute. reflexivity.
  - reflexivity.
  - vm_compute. reflexivity.
  - reflexivity.
  - vm_compute. reflexivity.
  - vm_compute. reflexivity.
  - reflexivity.
  - vm_compute. reflexivity.
  - exists db', pub'. split; [exact Hrun | exact Hrest].
Defined.

(** ** Invariants of a run *)

Lemma processCampaign_recipients_other (E : Env) (db : Store) (pub : list Stats.t)
    (campaignID : uuid) (k : uuid) :
  k ∉ (pending campaignID db).*1 ->
  recipients (processCampaign E db pub campaignID).1.1 !! k = recipients db !! k.
Proof.
  intros Hk. unfold processCampaign.
  destruct (campaigns db !! campaignID) as [campaign|]; [| reflexivity].
  destruct (startable (Campaign.Status campaign)); [| reflexivity]. simpl.
  destruct (First _ (accounts db)) as [[accountID account]|]; [| reflexivity].
  destruct (find_recipients_err E); [reflexivity |].
  change (pending campaignID (mark_processing campaignID db))
    with (pending campaignID db).
  destruct (loop E campaignID campaign account 0 (pending campaignID db)
              (enter (mark_processing campaignID db) pub campaign)) as [l [|o]] eqn:Hloop;
    simpl; now rewrite (loop_recipients_other _ _ _ _ _ k _ _ _ _ Hloop Hk).
Qed.

(** X7.  Whatever its outcome, a run leaves the accounts, the campaigns other
    than its own, and every recipient it did not load as pending exactly as
    they were. *)
Theorem run_leaves_other_rows
    (E : Env) (db : Store) (pub : list Stats.t) (campaignID : uuid) :
  accounts (processCampaign E db pub campaignID).1.1 = accounts db
  /\ (forall other, other <> campaignID ->
        campaigns (processCampaign E db pub campaignID).1.1 !! other = campaigns db !! other)
  /\ (forall k, k ∉ (pending campaignID db).*1 ->
        recipients (processCampaign E db pub campaignID).1.1 !! k = recipients db !! k).
Proof.
  split; [| split]; [| | intros k; apply processCampaign_recipients_other];
    (destruct (campaigns db !! campaignID) as [campaign|] eqn:Hc;
     [destruct (processCampaign_within E db pub campaignID campaign Hc) as (Ha & Ho & _);
      assumption
     | unfold processCampaign; rewrite Hc; simpl; auto]).
Qed.

(** X8.  Whatever its outcome, a run never removes or rewrites a contact or a
    message: the contacts it found are all still there, the messages it
    found are a prefix of the messages afterwards, and it adds at most one of
    each per pending recipient. *)
Theorem run_only_adds
    (E : Env) (db : Store) (pub : list Stats.t) (campaignID : uuid) :
  contacts db ⊆ contacts (processCampaign E db pub campaignID).1.1
  /\ (size (contacts (processCampaign E db pub campaignID).1.1)
      <= size (contacts db) + length (pending campaignID db))%nat
  /\ exists ms,
       messages (processCampaign E db pub campaignID).1.1 = messages db ++ ms
       /\ (length ms <= length (pending campaignID db))%nat.
Proof.
  destruct (campaigns db !! campaignID) as [campaign|] eqn:Hc.
  - destruct (processCampaign_within E db pub campaignID campaign Hc)
      as (_ & _ & Hsub & Hsize & Hms & _). auto.
  - unfold processCampaign. rewrite Hc. simpl.
    split; [reflexivity |]. split; [lia |].
    exists []. rewrite app_nil_r. split; [reflexivity | simpl; lia].
Qed.

(** X9.  The snapshots a run publishes are appended to the ones before, at
    most one per pending recipient and one for the completion; each carries
    the campaign's identifier and organization, a delivered and a read count
    of zero, and the status processing or completed. *)
Theorem run_snapshots
    (E : Env) (db : Store) (pub : list Stats.t) (campaignID : uuid)
    (campaign : Campaign.t) :
  campaigns db !! campaignID = Some campaign ->
  exists news,
    (processCampaign E db pub campaignID).1.2 = pub ++ news
    /\ (length news <= S (length (pending campaignID db)))%nat
    /\ Forall (snapshot_of campaignID campaign) news.
Proof.
  intros Hc.
  destruct (processCampaign_within E db pub campaignID campaign Hc)
    as (_ & _ & _ & _ & _ & Hnews). exact Hnews.
Qed.

Lemma run_snapshots_witness :
  exists news,
    (processCampaign Sample.quiet
       (Sample.db (Sample.campaign "queued" (Some Sample.tpl) 0 0)) [] 1%N).1.2 = [] ++ news
    /\ (length news <= 4)%nat
    /\ Forall (snapshot_of 1%N (Sample.campaign "queued" (Some Sample.tpl) 0 0)) news.
Proof.
  destruct (run_snapshots Sample.quiet
              (Sample.db (Sample.campaign "queued" (Some Sample.tpl) 0 0)) [] 1%N
              (Sample.campaign "queued" (Some Sample.tpl) 0 0)) as (news & Hnews & Hlen & Hall).
  - vm_compute. reflexivity.
  - exists news. split; [exact Hnews |]. split; [exact Hlen | exact Hall].
Defined.

Section Counted.
Context (E : Env) (campaignID : uuid) (campaign : Campaign.t) (account : Account.t).
Context (sent0 failed0 : Z) (Hsent0 : 0 <= sent0) (Hfailed0 : 0 <= failed0).

Lemma counted_weaken (n m : nat) (l : Run) :
  (n <= m)%nat -> counted campaignID sent0 failed0 n l -> counted campaignID sent0 failed0 m l.
Proof.
  intros Hnm (Hsum & current & Hc & Hs & Hf).
  split; [lia |]. exists current. auto.
Qed.

Lemma counted_management (n i : nat) (l : Run) :
  counted campaignID sent0 failed0 n l ->
  counted campaignID sent0 failed0 n (on_store (management E campaignID i) l).
Proof.
  intros (Hsum & current & Hc & Hs & Hf). split; [exact Hsum |].
  unfold management. simpl. destruct (management_status E i) as [s|]; simpl.
  - exists (Campaign.set_Status s current).
    unfold Update. rewrite lookup_alter_eq, Hc. simpl. auto.
  - exists current. auto.
Qed.

Lemma counted_deliver (n i : nat) (rid : uuid) (recipient : Recipient.t)
    (l l' : Run) (f : flow) :
  counted campaignID sent0 failed0 n l ->
  sent0 + failed0 + Z.of_nat n + 1 <= int_max ->
  deliver E campaignID campaign account i rid recipient l = (l', f) ->
  counted campaignID sent0 failed0 (S n) l'.
Proof.
  intros (Hsum & current & Hc & Hs & Hf) Hmax H.
  assert (Hmin : int_min <= 0) by (unfold int_min; lia).
  assert (Hup_s : incr (sentCount l) = sentCount l + 1)
    by (apply incr_below_max; lia).
  assert (Hup_f : incr (failedCount l) = failedCount l + 1)
    by (apply incr_below_max; lia).
  unfold deliver in H.
  destruct (getOrCreateContact _ _ _ _ _) as [db [err|[contactID contact]]] eqn:Hres;
    destruct (getOrCreateContact_frame _ _ _ _ _ _ _ Hres) as (Hfc & _ & _ & _).
  - injection H as <- <-. unfold counted. simpl. rewrite Hup_f.
    split; [lia |]. exists current. rewrite Hfc. split; [exact Hc |]. lia.
  - destruct (sendTemplateMessage _ _ _ _) as [reason|[id [e|]]];
      injection H as <- <-; unfold counted; simpl.
    + split; [lia |]. exists current. rewrite Hfc. split; [exact Hc |]. lia.
    + rewrite Hup_f. split; [lia |].
      eexists. unfold Update. rewrite lookup_alter_eq, Hfc, Hc. simpl.
      split; [reflexivity |]. simpl. lia.
    + rewrite Hup_s. split; [lia |].
      eexists. unfold Update. rewrite lookup_alter_eq, Hfc, Hc. simpl.
      split; [reflexivity |]. simpl. lia.
Qed.

Lemma counted_iteration (n i : nat) (r : uuid * Recipient.t) (l l' : Run) (f : flow) :
  counted campaignID sent0 failed0 n l ->
  sent0 + failed0 + Z.of_nat n + 1 <= int_max ->
  iteration E campaignID campaign account i r l = (l', f) ->
  counted campaignID sent0 failed0 (S n) l'.
Proof.
  intros Hinv Hmax H. apply iteration_cases in H as
    [(err & _ & -> & _)|[(_ & _ & -> & _)|(_ & _ & H)]].
  - apply (counted_weaken n); [lia | exact Hinv].
  - apply (counted_weaken n); [lia |]. now apply counted_management.
  - apply (counted_deliver n i _ _ _ _ _ (counted_management n i l Hinv) Hmax H).
Qed.

Lemma counted_loop (rs : list (uuid * Recipient.t)) :
  forall (n i : nat) (l l' : Run) (f : flow),
    counted campaignID sent0 failed0 n l ->
    sent0 + failed0 + Z.of_nat n + Z.of_nat (length rs) <= int_max ->
    loop E campaignID campaign account i rs l = (l', f) ->
    counted campaignID sent0 failed0 (n + length rs) l'.
Proof.
  induction rs as [|r rs IH]; intros n i l l' f Hinv Hmax H; simpl in H.
  - injection H as <- _. apply (counted_weaken n); [lia | exact Hinv].
  - simpl length in *.
    destruct (iteration E campaignID campaign account i r l) as [l1 [|o]] eqn:Hit.
    + apply (counted_iteration n) in Hit; [| exact Hinv | lia].
      replace (n + S (length rs))%nat with (S n + length rs)%nat by lia.
      eapply IH; [exact Hit | lia | exact H].
    + injection H as <- _.
      apply (counted_iteration n) in Hit; [| exact Hinv | lia].
      apply (counted_weaken (S n)); [lia | exact Hit].
Qed.

End Counted.

(** X10.  Whatever its outcome, a run of a campaign that is found never lowers
    a persisted counter, and the persisted counters grow in sum by at most
    the number of pending recipients (for counters that start non-negative
    and stay within [int]). *)
Theorem run_counters_grow
    (E : Env) (db : Store) (pub : list Stats.t) (campaignID : uuid)
    (campaign : Campaign.t) :
  campaigns db !! campaignID = Some campaign ->
  0 <= Campaign.SentCount campaign ->
  0 <= Campaign.FailedCount campaign ->
  Campaign.SentCount campaign + Campaign.FailedCount campaign
    + Z.of_nat (length (pending campaignID db)) <= int_max ->
  exists final,
    campaigns (processCampaign E db pub campaignID).1.1 !! campaignID = Some final
    /\ Campaign.SentCount campaign <= Campaign.SentCount final
    /\ Campaign.FailedCount campaign <= Campaign.FailedCount final
    /\ Campaign.SentCount final + Campaign.FailedCount final
       <= Campaign.SentCount campaign + Campaign.FailedCount campaign
          + Z.of_nat (length (pending campaignID db)).
Proof.
  intros Hc Hs Hf Hmax. unfold processCampaign. rewrite Hc.
  destruct (startable (Campaign.Status campaign)); simpl;
    [| exists campaign; split; [exact Hc | lia]].
  destruct (First _ (accounts db)) as [[accountID account]|]; simpl.
  2: { eexists. unfold Update. rewrite lookup_alter_eq, Hc. simpl.
       split; [reflexivity |]. simpl. lia. }
  destruct (find_recipients_err E); simpl.
  { eexists. unfold Update. rewrite !lookup_alter_eq, Hc. simpl.
    split; [reflexivity |]. simpl. lia. }
  change (pending campaignID (mark_processing campaignID db))
    with (pending campaignID db).
  assert (Hstart : counted campaignID (Campaign.SentCount campaign)
                     (Campaign.FailedCount campaign) 0
                     (enter (mark_processing campaignID db) pub campaign)).
  { split; [simpl; lia |]. eexists. simpl. unfold Update.
    rewrite lookup_alter_eq, Hc. simpl. split; [reflexivity |]. simpl. lia. }
  destruct (loop E campaignID campaign account 0 (pending campaignID db)
              (enter (mark_processing campaignID db) pub campaign)) as [l [|o]] eqn:Hloop;
    apply (counted_loop E campaignID campaign account _ _ Hs Hf _ 0 _ _ _ _ Hstart) in Hloop;
    try (simpl; lia);
    destruct Hloop as (Hsum & current & Hcur & Hcs & Hcf); simpl in Hsum.
  - simpl. eexists. unfold Update. rewrite lookup_alter_eq, Hcur. simpl.
    split; [reflexivity |]. simpl. lia.
  - simpl. exists current. split; [exact Hcur |]. lia.
Qed.

Lemma run_counters_grow_witness :
  exists final,
    campaigns (processCampaign Sample.cancelling
                 (Sample.db (Sample.campaign "queued" (Some Sample.tpl) 2 1)) [] 1%N).1.1
      !! 1%N = Some final
    /\ 2 <= Campaign.SentCount final
    /\ 1 <= Campaign.FailedCount final
    /\ Campaign.SentCount final + Campaign.FailedCount final <= 6.
Proof.
  destruct (run_counters_grow Sample.cancelling
              (Sample.db (Sample.campaign "queued" (Some Sample.tpl) 2 1)) [] 1%N
              (Sample.campaign "queued" (Some Sample.tpl) 2 1))
    as (final & Hfinal & Hs & Hf & Hsum).
  - vm_compute. reflexivity.
  - simpl. lia.
  - simpl. lia.
  - vm_compute. discriminate.
  - exists final. split; [exact Hfinal |]. split; [exact Hs |]. split; [exact Hf |].
    exact Hsum.
Defined.

(** ** More on contact resolution *)

(** X11.  A call of the resolver never removes or rewrites a contact and adds
    at most one.  The contact it returns is in the store afterwards, belongs
    to the organization asked for, and carries the stripped number or the
    stripped number behind a plus; when it returns an error the store is
    unchanged. *)
Theorem contact_resolution_result
    (insert : string + uuid) (db db1 : Store) (orgID : uuid)
    (phoneNumber name : string) (res : string + (uuid * Contact.t)) :
  getOrCreateContact insert db orgID phoneNumber name = (db1, res) ->
  contacts db ⊆ contacts db1
  /\ (size (contacts db1) <= size (contacts db) + 1)%nat
  /\ match res with
     | inr c =>
         contacts db1 !! c.1 = Some c.2
         /\ Contact.OrganizationID c.2 = orgID
         /\ (Contact.PhoneNumber c.2 = normalize phoneNumber
             \/ Contact.PhoneNumber c.2 = "+" +:+ normalize phoneNumber)
     | inl _ => db1 = db
     end.
Proof.
  intros H.
  destruct (getOrCreateContact_grows _ _ _ _ _ _ _ H) as (Hsub & Hsize).
  split; [exact Hsub |]. split; [exact Hsize |].
  assert (Hmatch : forall phone (c : uuid * Contact.t),
            First (same_contact orgID phone) (contacts db) = Some c ->
            contacts db !! c.1 = Some c.2 /\ Contact.OrganizationID c.2 = orgID
            /\ Contact.PhoneNumber c.2 = phone).
  { intros phone [k c] Hf. apply First_Some in Hf as [Hk Hc]. simpl.
    unfold same_contact in Hc. apply andb_true_iff in Hc as [Ho Hp].
    apply N.eqb_eq in Ho. apply String.eqb_eq in Hp. auto. }
  apply getOrCreateContact_cases in H as
    [[-> (c & -> & E1)]
    |[[-> (c & -> & _ & E2)]
    |[[-> (_ & _ & e & ->)]
    |(_ & _ & id & _ & _ & -> & ->)]]].
  - destruct (Hmatch _ _ E1) as (? & ? & ?). auto.
  - destruct (Hmatch _ _ E2) as (? & ? & ?). auto.
  - reflexivity.
  - simpl. rewrite lookup_insert_eq. auto.
Qed.

(** The number is known with the plus: the contact found carries it. *)
Lemma contact_resolution_result_witness :
  exists db1 c,
    getOrCreateContact (inr 101%N)
      (with_contacts (fun tbl => <[100%N := {| Contact.OrganizationID := 7%N;
                                              Contact.PhoneNumber := "+111";
                                              Contact.ProfileName := "Ana" |}]> tbl)
         (Sample.db (Sample.campaign "queued" None 0 0)))
      7%N "111" "Ana B." = (db1, inr c)
    /\ contacts db1 !! c.1 = Some c.2
    /\ Contact.OrganizationID c.2 = 7%N
    /\ (Contact.PhoneNumber c.2 = "111" \/ Contact.PhoneNumber c.2 = "+111").
Proof.
  destruct (getOrCreateContact (inr 101%N)
              (with_contacts (fun tbl => <[100%N := {| Contact.OrganizationID := 7%N;
                                                      Contact.PhoneNumber := "+111";
                                                      Contact.ProfileName := "Ana" |}]> tbl)
                 (Sample.db (Sample.campaign "queued" None 0 0)))
              7%N "111" "Ana B.") as [db1 [e|c]] eqn:H.
  - vm_compute in H. discriminate H.
  - exists db1, c. split; [reflexivity |].
    exact (proj2 (proj2 (contact_resolution_result _ _ _ _ _ _ _ H))).
Defined.

(** ** What the gateway is asked to send *)

Lemma omap_shorter {A B : Type} (f : A -> option B) (l : list A) :
  (length (omap f l) <= length l)%nat.
Proof.
  induction l as [|x l IH]; csimpl; [lia |].
  destruct (f x); csimpl; lia.
Qed.

Lemma bodyParams_elem (params : JSONB) (val : jvalue) :
  val ∈ bodyParams params ->
  exists m i, params = Some m /\ (1 <= i <= 10)%nat /\ m !! Str.Sprintf_d i = Some val.
Proof.
  unfold bodyParams. destruct params as [m|]; [| intros H; inversion H].
  destruct (0 <? size m)%nat; [| intros H; inversion H].
  intros H. apply list_elem_of_omap in H as (i & Hi & Hm).
  apply elem_of_seq in Hi. exists m, i. split; [reflexivity |]. split; [lia | exact Hm].
Qed.

(** X12.  For a campaign with a template, [sendTemplateMessage] makes one
    call to the gateway, for the recipient's number as it is stored and the
    template's name and language.  The call carries at most one body
    component; a component holds between one and ten parameters, each the
    value of one of the keys 1 to 10 of the recipient's parameters. *)
Theorem gateway_request_shape
    (send : Gateway.request -> Gateway.reply) (account : Account.t)
    (tpl : Template.t) (recipient : Recipient.t) :
  exists req,
    sendTemplateMessage send account (Some tpl) recipient = inr (send req)
    /\ Gateway.to req = Recipient.PhoneNumber recipient
    /\ Gateway.templateName req = Template.Name tpl
    /\ Gateway.language req = Template.Language tpl
    /\ (length (Gateway.components req) <= 1)%nat
    /\ (forall ps, Gateway.Body ps ∈ Gateway.components req ->
          (1 <= length ps <= 10)%nat
          /\ forall val, val ∈ ps ->
               exists m i, Recipient.TemplateParams recipient = Some m
                           /\ (1 <= i <= 10)%nat
                           /\ m !! Str.Sprintf_d i = Some val).
Proof.
  eexists. split; [reflexivity |]. simpl.
  split; [reflexivity |]. split; [reflexivity |]. split; [reflexivity |].
  unfold components_of.
  assert (Hlen : (length (bodyParams (Recipient.TemplateParams recipient)) <= 10)%nat).
  { unfold bodyParams. destruct (Recipient.TemplateParams recipient) as [m|]; [| simpl; lia].
    destruct (0 <? size m)%nat; [| simpl; lia].
    etrans; [apply omap_shorter |]. simpl. lia. }
  pose proof (bodyParams_elem (Recipient.TemplateParams recipient)) as Helem.
  destruct (bodyParams (Recipient.TemplateParams recipient)) as [|p ps0]; simpl.
  - split; [lia |]. intros ps Hin. inversion Hin.
  - split; [lia |]. intros ps Hin.
    apply list_elem_of_singleton in Hin. injection Hin as ->.
    split; [simpl in *; lia |]. exact Helem.
Qed.

(** ** More on the rendered content *)

Lemma fold_substitute_ext (m m' : gmap string jvalue) (idx : list nat) :
  (forall i, i ∈ idx -> m !! Str.Sprintf_d i = m' !! Str.Sprintf_d i) ->
  forall body, fold_left (substitute_one m) idx body = fold_left (substitute_one m') idx body.
Proof.
  induction idx as [|i idx IH]; intros Hagree body; simpl; [reflexivity |].
  unfold substitute_one at 2 4. rewrite (Hagree i) by left.
  apply IH. intros j Hj. apply Hagree. now right.
Qed.

(** X13.  The rendered content depends on the parameters only through the
    keys 1 to 10: two parameter maps that agree on these keys render every
    body alike, and a map without any of them leaves the body unchanged. *)
Theorem render_reads_ten_keys (body : string) (m m' : gmap string jvalue) :
  (forall i, (1 <= i <= 10)%nat -> m !! Str.Sprintf_d i = m' !! Str.Sprintf_d i) ->
  render body (Some m) = render body (Some m')
  /\ ((forall i, (1 <= i <= 10)%nat -> m !! Str.Sprintf_d i = None) ->
      render body (Some m) = body).
Proof.
  intros Hagree. split.
  - unfold render. apply fold_substitute_ext.
    intros i Hi. apply Hagree. apply elem_of_seq in Hi. lia.
  - intros Hnone. unfold render.
    rewrite (fold_substitute_ext m ∅).
    + clear. generalize (seq 1 10). intros idx. revert body.
      induction idx as [|i idx IH]; intros body; simpl; [reflexivity |].
      unfold substitute_one at 2. rewrite lookup_empty. apply IH.
    + intros i Hi. rewrite lookup_empty. apply Hnone. apply elem_of_seq in Hi. lia.
Qed.

(** Keys 0, 11 and a name are not read. *)
Lemma render_reads_ten_keys_witness :
  render "{{0}} {{1}} {{11}} {{name}}"
    (params_of [("0", JString "zero"); ("1", JString "one");
                ("11", JString "eleven"); ("name", JString "Ana")])
  = render "{{0}} {{1}} {{11}} {{name}}" (params_of [("1", JString "one")]).
Proof.
  apply (render_reads_ten_keys "{{0}} {{1}} {{11}} {{name}}"
           (list_to_map [("0", JString "zero"); ("1", JString "one");
                         ("11", JString "eleven"); ("name", JString "Ana")])
           (list_to_map [("1", JString "one")])).
  intros i Hi.
  destruct i as [|[|[|[|[|[|[|[|[|[|[|i]]]]]]]]]]]; try lia; vm_compute; reflexivity.
Defined.

Section Barrier.
Import Str StrFacts.
#[local] Arguments String.append : simpl nomatch.

Lemma append_empty_r (a : string) : a +:+ "" = a.
Proof. induction a as [|x a IH]; simpl; [reflexivity | now rewrite IH]. Qed.

Lemma prefix_length (o s : string) :
  String.prefix o s = true -> (String.length o <= String.length s)%nat.
Proof.
  revert s. induction o as [|x o IH]; intros s H; simpl; [lia |].
  destruct s as [|y s]; simpl in H; [discriminate |].
  destruct (ascii_dec x y); [| discriminate].
  specialize (IH _ H). simpl. lia.
Qed.

Lemma prefix_empty_r (o : string) : o <> "" -> String.prefix o "" = false.
Proof. destruct o; [congruence | reflexivity]. Qed.

(** Text without an opening brace matches as far into a string as into the
    string followed by an opening brace. *)
Lemma prefix_before_open (r : string) :
  no_open r = true ->
  forall a w, String.prefix r (a +:+ String "{" w) = String.prefix r a.
Proof.
  induction r as [|ch r IH]; intros Hr a w.
  - destruct a; reflexivity.
  - simpl in Hr. apply andb_true_iff in Hr as [Hch Hr].
    apply negb_true_iff, Ascii.eqb_neq in Hch.
    destruct a as [|d a]; simpl.
    + destruct (ascii_dec ch "{"); [contradiction | reflexivity].
    + destruct (ascii_dec ch d); [now apply IH | reflexivity].
Qed.

(** A placeholder matches inside [a] exactly when it matches inside [a]
    followed by another placeholder. *)
Lemma prefix_before_placeholder (i k : nat) (c : ascii) (a z : string) :
  String.prefix (placeholder i) (String c a +:+ placeholder k +:+ z)
  = String.prefix (placeholder i) (String c a).
Proof.
  rewrite (placeholder_cons i), (placeholder_unfold k).
  set (r := Sprintf_d i +:+ "}}").
  assert (Hr : no_open r = true).
  { unfold r, Sprintf_d. rewrite no_open_append.
    now rewrite (brace_free_no_open _ (digits_brace_free _)). }
  assert (Hne : exists ch r', r = String ch r' /\ ch <> "{"%char).
  { destruct r as [|ch r'] eqn:Er.
    - unfold r, Sprintf_d in Er. destruct (NilEmpty.string_of_uint _); discriminate Er.
    - simpl in Hr. apply andb_true_iff in Hr as [Hch _].
      apply negb_true_iff, Ascii.eqb_neq in Hch. eauto. }
  set (Y := String "{" (String "{" (Sprintf_d k +:+ String "}" (String "}" z)))).
  change (String c a +:+ Y) with (String c (a +:+ Y)).
  cbn [String.prefix].
  destruct (ascii_dec "{" c) as [<-|]; [| reflexivity].
  destruct a as [|c' a].
  - change ("" +:+ Y) with Y. unfold Y. cbn [String.prefix].
    destruct (ascii_dec "{" "{") as [_|bad]; [| now destruct bad].
    destruct Hne as (ch & r' & -> & Hch). cbn [String.prefix].
    destruct (ascii_dec ch "{"); [contradiction | reflexivity].
  - change (String c' a +:+ Y) with (String c' (a +:+ Y)). cbn [String.prefix].
    destruct (ascii_dec "{" c') as [<-|]; [| reflexivity].
    unfold Y. now apply prefix_before_open.
Qed.

Lemma replace_go_barrier (i k : nat) (new b : string) :
  k <> i ->
  forall a skip, (skip <= String.length a)%nat ->
    replace_go (placeholder i) new skip (a +:+ placeholder k +:+ b)
    = replace_go (placeholder i) new skip a +:+ placeholder k
      +:+ replace_go (placeholder i) new O b.
Proof.
  intros ne. induction a as [|c a IH]; intros skip Hskip.
  - simpl in Hskip. assert (skip = O) as -> by lia.
    change ("" +:+ placeholder k +:+ b) with (placeholder k +:+ b).
    pose proof (placeholder_miss i k new b ne) as H.
    unfold ReplaceAll in H. rewrite (placeholder_cons i) in H.
    rewrite (placeholder_cons i). exact H.
  - destruct skip as [|j].
    + change (String c a +:+ placeholder k +:+ b)
        with (String c (a +:+ placeholder k +:+ b)).
      cbn [replace_go].
      change (String c (a +:+ placeholder k +:+ b))
        with (String c a +:+ placeholder k +:+ b).
      rewrite prefix_before_placeholder.
      destruct (String.prefix (placeholder i) (String c a)) eqn:Hp.
      * apply prefix_length in Hp.
        change (String.length (String c a)) with (S (String.length a)) in Hp.
        rewrite IH by lia. now rewrite append_assoc.
      * rewrite IH by lia. reflexivity.
    + change (String c a +:+ placeholder k +:+ b)
        with (String c (a +:+ placeholder k +:+ b)).
      cbn [replace_go]. apply IH. simpl in Hskip. lia.
Qed.

Lemma ReplaceAll_barrier (i k : nat) (new a b : string) :
  k <> i ->
  ReplaceAll (a +:+ placeholder k +:+ b) (placeholder i) new
  = ReplaceAll a (placeholder i) new +:+ placeholder k +:+ ReplaceAll b (placeholder i) new.
Proof.
  intros ne. unfold ReplaceAll. rewrite (placeholder_cons i).
  rewrite <- (placeholder_cons i). apply replace_go_barrier; [exact ne | lia].
Qed.

Lemma ReplaceAll_no_open (i : nat) (new s : string) :
  no_open s = true -> ReplaceAll s (placeholder i) new = s.
Proof.
  intros Hs. unfold ReplaceAll. rewrite placeholder_cons.
  rewrite <- (append_empty_r s) at 1.
  rewrite (replace_go_copy _ _ _ _ Hs). simpl. apply append_empty_r.
Qed.

(** X14.  A placeholder that no pass rewrites (its number is outside 1 to 10,
    or its key is not among the parameters) stays in the content as it is,
    whatever the text around it and whatever the values: the content is the
    rendering of the text before it, the placeholder, and the rendering of
    the text behind it. *)
Theorem unmatched_placeholder_stays (a b : string) (k : nat) (m : gmap string jvalue) :
  ((1 <= k <= 10)%nat -> m !! Str.Sprintf_d k = None) ->
  render (a +:+ Str.placeholder k +:+ b) (Some m)
  = render a (Some m) +:+ Str.placeholder k +:+ render b (Some m).
Proof.
  intros Hk. unfold render.
  assert (Hidx : forall i, i ∈ seq 1 10 -> (1 <= i <= 10)%nat)
    by (intros i Hi; apply elem_of_seq in Hi; lia).
  revert a b. induction (seq 1 10) as [|i idx IH]; intros a b; cbn [fold_left];
    [reflexivity |].
  assert (Hstep : substitute_one m (a +:+ placeholder k +:+ b) i
                  = substitute_one m a i +:+ placeholder k +:+ substitute_one m b i).
  { unfold substitute_one. destruct (m !! Sprintf_d i) as [val|] eqn:Hm; [| reflexivity].
    apply ReplaceAll_barrier. intros ->.
    rewrite Hk in Hm by (apply Hidx; left). discriminate Hm. }
  rewrite Hstep. apply IH. intros j Hj. apply Hidx. now right.
Qed.

Lemma unmatched_placeholder_stays_witness :
  render ("{{1}} and " +:+ Str.placeholder 3 +:+ " and {{2}}")
    (params_of [("1", JString "{{3}}"); ("2", JString "two")])
  = "{{3}} and {{3}} and two".
Proof.
  unfold params_of.
  rewrite (unmatched_placeholder_stays "{{1}} and " " and {{2}}" 3
             (list_to_map [("1", JString "{{3}}"); ("2", JString "two")])).
  - vm_compute. reflexivity.
  - intros _. vm_compute. reflexivity.
Defined.

(** X15.  A body without an opening brace is rendered as it is, whatever the
    parameters. *)
Theorem body_without_brace_unchanged (body : string) (params : JSONB) :
  Str.no_open body = true -> render body params = body.
Proof.
  intros Hb. destruct params as [m|]; [| reflexivity]. unfold render.
  induction (seq 1 10) as [|i idx IH]; cbn [fold_left]; [reflexivity |].
  assert (Hstep : substitute_one m body i = body).
  { unfold substitute_one. destruct (m !! Sprintf_d i); [| reflexivity].
    now apply ReplaceAll_no_open. }
  now rewrite Hstep.
Qed.

Lemma body_without_brace_unchanged_witness :
  render "Your parcel } is on its way"
    (params_of [("1", JString "{{2}}"); ("2", JString "x")])
  = "Your parcel } is on its way".
Proof.
  apply (body_without_brace_unchanged "Your parcel } is on its way"). reflexivity.
Defined.

End Barrier.

(** ** The first send of a campaign without a template *)

(** X16.  On a campaign that carries no template, the first iteration that
    resolves a contact panics on the nil template and ends the loop: no
    message is saved, no recipient or campaign row is written and nothing is
    published; only a contact the resolution inserted stays behind. *)
Theorem missing_template_ends_loop
    (E : Env) (campaignID : uuid) (campaign : Campaign.t) (account : Account.t)
    (i : nat) (r : uuid * Recipient.t) (rest : list (uuid * Recipient.t))
    (l : Run) (db : Store) (c : uuid * Contact.t) :
  Campaign.Template campaign = None ->
  ctx_Err E i = None ->
  stopped (polled_status E campaignID i (management E campaignID i (store l))) = false ->
  getOrCreateContact (contact_insert E i) (management E campaignID i (store l))
    (Campaign.OrganizationID campaign)
    (Recipient.PhoneNumber r.2) (Recipient.RecipientName r.2) = (db, inr c) ->
  exists l',
    loop E campaignID campaign account i (r :: rest) l
    = (l', Break (Panicked nil_dereference))
    /\ store l' = db
    /\ recipients db = recipients (store l)
    /\ messages db = messages (store l)
    /\ campaigns db = campaigns (management E campaignID i (store l))
    /\ published l' = published l
    /\ sentCount l' = sentCount l /\ failedCount l' = failedCount l.
Proof.
  intros Ht Hctx Hpoll Hres.
  destruct (getOrCreateContact_frame _ _ _ _ _ _ _ Hres) as (Hc & Hr & Hm & _).
  destruct (management_frame E campaignID i (store l)) as (Hr' & _ & Hm' & _).
  eexists. split.
  { simpl. unfold iteration. rewrite Hctx. simpl. rewrite Hpoll.
    rewrite (deliver_without_template E campaignID campaign account i r.1 r.2
               (on_store (management E campaignID i) l) db c Ht Hres).
    reflexivity. }
  simpl. rewrite Hr, Hm, Hr', Hm'. auto 10.
Qed.

Lemma missing_template_ends_loop_witness :
  exists l',
    loop Sample.quiet 1%N (Sample.campaign "processing" None 0 0) Sample.account 0
      [(10%N, Sample.recipient "+111" "Ana"); (12%N, Sample.recipient "+333" "Cy")]
      (Sample.run (Sample.db (Sample.campaign "processing" None 0 0)))
    = (l', Break (Panicked nil_dereference))
    /\ messages (store l') = []
    /\ recipients (store l') = recipients (Sample.db (Sample.campaign "processing" None 0 0)).
Proof.
  edestruct (missing_template_ends_loop Sample.quiet 1%N
               (Sample.campaign "processing" None 0 0) Sample.account 0
               (10%N, Sample.recipient "+111" "Ana")
               [(12%N, Sample.recipient "+333" "Cy")]
               (Sample.run (Sample.db (Sample.campaign "processing" None 0 0))))
    as (l' & Hloop & Hstore & Hr & Hm & _).
  - reflexivity.
  - reflexivity.
  - vm_compute. reflexivity.
  - vm_compute. reflexivity.
  - exists l'. split; [exact Hloop |]. rewrite Hstore. split; [exact Hm | exact Hr].
Defined.
